(** * goserve: the file / directory information API (server/api.go)

    A shallow embedding of [server/api.go]: the JSON shapes of [FileStat],
    [DirStat] and [StatError], the resolver [statsEndpoint], the encoder
    [handleEndpoint] and the middleware [ServeAPI], over models of the Go
    library calls they make (strings, encoding/json, time, net/http, os). *)

From Stdlib Require Import ZArith String Ascii List Lia Bool DecimalString.
From Stdlib Require Import DecimalZ DecimalPos.
From stdpp Require Import base option gmap strings.

Local Open Scope string_scope.
Local Open Scope Z_scope.

(** ** Go strings *)

Module strings.

(** [len(s)]: the number of bytes of [s]. *)
Definition len (s : string) : Z := Z.of_nat (String.length s).

Fixpoint IndexByte (s : string) (c : ascii) : bool :=
  match s with
  | EmptyString => false
  | String d s' => if Ascii.eqb c d then true else IndexByte s' c
  end.

(** [strings.TrimRight(s, cutset)]: [s] without its trailing bytes that
    are in [cutset]. *)
Fixpoint TrimRight (s cutset : string) : string :=
  match s with
  | EmptyString => EmptyString
  | String c s' =>
      match TrimRight s' cutset with
      | EmptyString =>
          if IndexByte cutset c then EmptyString else String c EmptyString
      | t => String c t
      end
  end.

(** [strings.HasPrefix(s, prefix)]. *)
Fixpoint HasPrefix (s prefix : string) : bool :=
  match prefix, s with
  | EmptyString, _ => true
  | String p prefix', String c s' =>
      if Ascii.eqb c p then HasPrefix s' prefix' else false
  | String _ _, EmptyString => false
  end.

Fixpoint drop (n : nat) (s : string) : string :=
  match n, s with
  | O, _ => s
  | S n', String _ s' => drop n' s'
  | S _, EmptyString => EmptyString
  end.

Fixpoint repeat (c : ascii) (n : nat) : string :=
  match n with
  | O => EmptyString
  | S n' => String c (repeat c n')
  end.

End strings.

(** ** Run-time panics

    A Go expression that can panic (a slice out of range, a nil pointer
    dereference, a failed type assertion) evaluates to [Panic]. *)

Inductive result (A : Type) : Type :=
| Ok (a : A)
| Panic (msg : string).
Arguments Ok {A} a.
Arguments Panic {A} msg.

#[global] Instance result_ret : MRet result := fun A a => Ok a.
#[global] Instance result_bind : MBind result := fun A B k m =>
  match m with
  | Ok a => k a
  | Panic msg => Panic msg
  end.

(** [s[n:]]: slicing panics when [n] is beyond the end of [s]. *)
Definition slice_from (s : string) (n : Z) : result string :=
  if (0 <=? n) && (n <=? strings.len s)
  then Ok (strings.drop (Z.to_nat n) s)
  else Panic "slice bounds out of range".

(** ** strconv and time *)

Module strconv.

(** [strconv.Itoa] / the decimal form json gives an integer. *)
Definition Itoa (z : Z) : string := NilZero.string_of_int (Z.to_int z).

End strconv.

Module time.

(** A [time.Time] as the calendar fields it reports in its location
    ([Date], [Clock], [Nanosecond]) and the offset of [Zone], in seconds
    east of UTC. *)
Record Time : Type := {
  Year : Z; Month : Z; Day : Z;
  Hour : Z; Minute : Z; Second : Z;
  Nanosecond : Z;
  Offset : Z
}.

(** [appendInt(b, x, width)]: decimal, zero-padded to [width]. *)
Definition appendInt (x : Z) (width : nat) : string :=
  let digits := strconv.Itoa (Z.abs x) in
  (if x <? 0 then "-" else EmptyString) ++
  strings.repeat "0"%char (width - String.length digits) ++ digits.

(** Trailing zeros of the fraction are not printed. *)
Definition trimZeros (s : string) : string := strings.TrimRight s "0".

(** [appendNano] for the layout [.999999999]: nothing when the fraction
    is zero. *)
Definition appendNano (nsec : Z) : string :=
  match trimZeros (appendInt nsec 9) with
  | EmptyString => EmptyString
  | frac => "." ++ frac
  end.

Definition appendZone (offset : Z) : string :=
  if offset =? 0 then "Z"
  else
    let zone := Z.quot offset 60 in
    (if zone <? 0 then "-" else "+") ++
    appendInt (Z.quot (Z.abs zone) 60) 2 ++ ":" ++
    appendInt (Z.rem (Z.abs zone) 60) 2.

Definition appendFormatRFC3339 (t : Time) : string :=
  appendInt (Year t) 4 ++ "-" ++ appendInt (Month t) 2 ++ "-" ++
  appendInt (Day t) 2 ++ "T" ++ appendInt (Hour t) 2 ++ ":" ++
  appendInt (Minute t) 2 ++ ":" ++ appendInt (Second t) 2 ++
  appendNano (Nanosecond t) ++ appendZone (Offset t).

(** [appendStrictRFC3339]: a year outside [0,9999] or a zone hour
    outside [0,23] is an error ([None]). *)
Definition appendStrictRFC3339 (t : Time) : option string :=
  if (Year t <? 0) || (9999 <? Year t) then None
  else if 24 <=? Z.quot (Z.abs (Z.quot (Offset t) 60)) 60 then None
  else Some (appendFormatRFC3339 t).

End time.

(** ** unicode/utf8 and encoding/json *)

Module utf8.

Definition byte (c : ascii) : Z := Z.of_N (N_of_ascii c).

Definition continuation (c : ascii) : bool :=
  (128 <=? byte c) && (byte c <=? 191).

Definition inRange (lo hi : Z) (c : ascii) : bool :=
  (lo <=? byte c) && (byte c <=? hi).

(** The size and the accepted range of the second byte that a leading
    byte announces (the [first] and [acceptRanges] tables). *)
Definition first (c : ascii) : option (nat * Z * Z) :=
  let b := byte c in
  if (194 <=? b) && (b <=? 223) then Some (2%nat, 128, 191)
  else if b =? 224 then Some (3%nat, 160, 191)
  else if (225 <=? b) && (b <=? 236) then Some (3%nat, 128, 191)
  else if b =? 237 then Some (3%nat, 128, 159)
  else if (238 <=? b) && (b <=? 239) then Some (3%nat, 128, 191)
  else if b =? 240 then Some (4%nat, 144, 191)
  else if (241 <=? b) && (b <=? 243) then Some (4%nat, 128, 191)
  else if b =? 244 then Some (4%nat, 128, 143)
  else None.

(** [utf8.DecodeRuneInString] on a string that starts with a byte of
    0x80 or more: the rune and its size, or [None] for [(RuneError, 1)]. *)
Definition DecodeRuneInString (s : string) : option (Z * nat) :=
  match s with
  | EmptyString => None
  | String s0 rest =>
      match first s0 with
      | None => None
      | Some (sz, lo, hi) =>
          match rest with
          | EmptyString => None
          | String s1 rest1 =>
              if negb (inRange lo hi s1) then None
              else if (sz <=? 2)%nat then
                Some (Z.lor (Z.shiftl (Z.land (byte s0) 31) 6)
                            (Z.land (byte s1) 63), 2%nat)
              else
                match rest1 with
                | EmptyString => None
                | String s2 rest2 =>
                    if negb (continuation s2) then None
                    else if (sz <=? 3)%nat then
                      Some (Z.lor (Z.shiftl (Z.land (byte s0) 15) 12)
                              (Z.lor (Z.shiftl (Z.land (byte s1) 63) 6)
                                     (Z.land (byte s2) 63)), 3%nat)
                    else
                      match rest2 with
                      | EmptyString => None
                      | String s3 _ =>
                          if negb (continuation s3) then None
                          else
                            Some (Z.lor (Z.shiftl (Z.land (byte s0) 7) 18)
                                   (Z.lor (Z.shiftl (Z.land (byte s1) 63) 12)
                                     (Z.lor (Z.shiftl (Z.land (byte s2) 63) 6)
                                            (Z.land (byte s3) 63))), 4%nat)
                      end
                end
          end
      end
  end.

End utf8.

Module json.

Definition quote : string := String "034"%char EmptyString.
Definition backslash : string := String "092"%char EmptyString.

Definition hex (n : Z) : string :=
  match String.get (Z.to_nat n) "0123456789abcdef" with
  | Some c => String c EmptyString
  | None => EmptyString
  end.

(** [htmlSafeSet]: the ASCII bytes written as they are. *)
Definition htmlSafe (b : Z) : bool :=
  (32 <=? b) && negb ((b =? 34) || (b =? 38) || (b =? 60) || (b =? 62) || (b =? 92)).

(** The escape of an ASCII byte outside [htmlSafeSet]. *)
Definition escapeByte (c : ascii) : string :=
  let b := utf8.byte c in
  if (b =? 92) || (b =? 34) then backslash ++ String c EmptyString
  else if b =? 8 then backslash ++ "b"
  else if b =? 12 then backslash ++ "f"
  else if b =? 10 then backslash ++ "n"
  else if b =? 13 then backslash ++ "r"
  else if b =? 9 then backslash ++ "t"
  else backslash ++ "u00" ++ hex (Z.shiftr b 4) ++ hex (Z.land b 15).

(** The loop of [appendString] with HTML escaping on. [pending] bytes of
    the rune being read are still to come; they are copied, or dropped
    when the rune was escaped. *)
Fixpoint appendStringBody (pending : nat) (copy : bool) (s : string) : string :=
  match s with
  | EmptyString => EmptyString
  | String c s' =>
      match pending with
      | S k =>
          if copy then String c (appendStringBody k copy s')
          else appendStringBody k copy s'
      | O =>
          if utf8.byte c <? 128 then
            (if htmlSafe (utf8.byte c) then String c EmptyString
             else escapeByte c) ++ appendStringBody 0 true s'
          else
            match utf8.DecodeRuneInString s with
            | None => backslash ++ "ufffd" ++ appendStringBody 0 true s'
            | Some (r, size) =>
                if (r =? 8232) || (r =? 8233) then
                  backslash ++ "u202" ++ hex (Z.land r 15) ++
                  appendStringBody (size - 1) false s'
                else String c (appendStringBody (size - 1) true s')
            end
      end
  end.

Definition appendString (s : string) : string :=
  quote ++ appendStringBody 0 true s ++ quote.

(** The values of the fields of the structs this package marshals. *)
Inductive value : Type :=
| String_ (s : string)
| Int (n : Z)
| Time (t : time.Time).

Definition marshalValue (v : value) : option string :=
  match v with
  | String_ s => Some (appendString s)
  | Int n => Some (strconv.Itoa n)
  | Time t => (fun s => quote ++ s ++ quote) <$> time.appendStrictRFC3339 t
  end.

(** The fields of a struct, each under the name of its [json] tag, in
    the order of declaration. *)
Fixpoint marshalFields (first : bool) (fields : list (string * value)) : option string :=
  match fields with
  | [] => Some EmptyString
  | (name, v) :: rest =>
      b ← marshalValue v;
      bs ← marshalFields false rest;
      Some ((if first then EmptyString else ",") ++
            appendString name ++ ":" ++ b ++ bs)
  end.

(** [json.Marshal] of a struct value; [None] is a marshalling error. *)
Definition Marshal (fields : list (string * value)) : option string :=
  (fun b => "{" ++ b ++ "}") <$> marshalFields true fields.

End json.

(** ** syscall and os *)

Module syscall.

(** The error numbers stat(2) and open(2) document on Linux. *)
Inductive Errno : Type :=
| EPERM | ENOENT | EINTR | EIO | ENXIO | EBADF | EAGAIN | ENOMEM | EACCES
| EFAULT | EBUSY | EEXIST | ENODEV | ENOTDIR | EISDIR | EINVAL | ENFILE
| EMFILE | ETXTBSY | EFBIG | ENOSPC | EROFS | ENAMETOOLONG | ELOOP
| EOVERFLOW | EOPNOTSUPP | EDQUOT.

#[global] Instance Errno_eq_dec : EqDecision Errno.
Proof. solve_decision. Defined.

(** [Errno.Error]: the text of the error table. *)
Definition Error (e : Errno) : string :=
  match e with
  | EPERM => "operation not permitted"
  | ENOENT => "no such file or directory"
  | EINTR => "interrupted system call"
  | EIO => "input/output error"
  | ENXIO => "no such device or address"
  | EBADF => "bad file descriptor"
  | EAGAIN => "resource temporarily unavailable"
  | ENOMEM => "cannot allocate memory"
  | EACCES => "permission denied"
  | EFAULT => "bad address"
  | EBUSY => "device or resource busy"
  | EEXIST => "file exists"
  | ENODEV => "no such device"
  | ENOTDIR => "not a directory"
  | EISDIR => "is a directory"
  | EINVAL => "invalid argument"
  | ENFILE => "too many open files in system"
  | EMFILE => "too many open files"
  | ETXTBSY => "text file busy"
  | EFBIG => "file too large"
  | ENOSPC => "no space left on device"
  | EROFS => "read-only file system"
  | ENAMETOOLONG => "file name too long"
  | ELOOP => "too many levels of symbolic links"
  | EOVERFLOW => "value too large for defined data type"
  | EOPNOTSUPP => "operation not supported"
  | EDQUOT => "disk quota exceeded"
  end.

End syscall.

Module os.

(** [os.FileMode]: a 32-bit set of flags. *)
Definition FileMode := Z.

Definition ModeDir : FileMode := Z.shiftl 1 31.
Definition ModeSymlink : FileMode := Z.shiftl 1 27.
Definition ModeDevice : FileMode := Z.shiftl 1 26.
Definition ModeNamedPipe : FileMode := Z.shiftl 1 25.
Definition ModeSocket : FileMode := Z.shiftl 1 24.
Definition ModeCharDevice : FileMode := Z.shiftl 1 21.
Definition ModeIrregular : FileMode := Z.shiftl 1 19.

Definition ModeType : FileMode :=
  Z.lor ModeDir (Z.lor ModeSymlink (Z.lor ModeNamedPipe (Z.lor ModeSocket
    (Z.lor ModeDevice (Z.lor ModeCharDevice ModeIrregular))))).

Definition IsDir (m : FileMode) : bool := negb (Z.land m ModeDir =? 0).
Definition IsRegular (m : FileMode) : bool := Z.land m ModeType =? 0.

(** What the methods of an [os.FileInfo] return. *)
Record FileInfo : Type := {
  Name : string;
  Size : Z;
  Mode : FileMode;
  ModTime : time.Time
}.

Record PathError : Type := {
  Op : string;
  Path : string;
  Err : syscall.Errno
}.

(** [PathError.Error]. *)
Definition PathError_Error (e : PathError) : string :=
  Op e ++ " " ++ Path e ++ ": " ++ syscall.Error (Err e).

(** [os.ErrPermission.Error()]. *)
Definition ErrPermission_Error : string := "permission denied".

Definition O_RDONLY : Z := 0.

Record File : Type := { file_name : string }.

(** The file system as the two system calls see it: the outcome of
    stat(2) and of open(2) on each path. *)
Record FS : Type := {
  stat : string -> FileInfo + syscall.Errno;
  open : string -> Z -> Z -> option syscall.Errno
}.

End os.

(** ** net/http *)

Module http.

Definition StatusMovedPermanently : Z := 301.
Definition StatusForbidden : Z := 403.
Definition StatusNotFound : Z := 404.
Definition StatusInternalServerError : Z := 500.

(** [http.StatusText]: empty for a code it does not know. *)
Definition StatusText (code : Z) : string :=
  match code with
  | 100 => "Continue"
  | 101 => "Switching Protocols"
  | 102 => "Processing"
  | 103 => "Early Hints"
  | 200 => "OK"
  | 201 => "Created"
  | 202 => "Accepted"
  | 203 => "Non-Authoritative Information"
  | 204 => "No Content"
  | 205 => "Reset Content"
  | 206 => "Partial Content"
  | 207 => "Multi-Status"
  | 208 => "Already Reported"
  | 226 => "IM Used"
  | 300 => "Multiple Choices"
  | 301 => "Moved Permanently"
  | 302 => "Found"
  | 303 => "See Other"
  | 304 => "Not Modified"
  | 305 => "Use Proxy"
  | 307 => "Temporary Redirect"
  | 308 => "Permanent Redirect"
  | 400 => "Bad Request"
  | 401 => "Unauthorized"
  | 402 => "Payment Required"
  | 403 => "Forbidden"
  | 404 => "Not Found"
  | 405 => "Method Not Allowed"
  | 406 => "Not Acceptable"
  | 407 => "Proxy Authentication Required"
  | 408 => "Request Timeout"
  | 409 => "Conflict"
  | 410 => "Gone"
  | 411 => "Length Required"
  | 412 => "Precondition Failed"
  | 413 => "Request Entity Too Large"
  | 414 => "Request URI Too Long"
  | 415 => "Unsupported Media Type"
  | 416 => "Requested Range Not Satisfiable"
  | 417 => "Expectation Failed"
  | 418 => "I'm a teapot"
  | 421 => "Misdirected Request"
  | 422 => "Unprocessable Entity"
  | 423 => "Locked"
  | 424 => "Failed Dependency"
  | 425 => "Too Early"
  | 426 => "Upgrade Required"
  | 428 => "Precondition Required"
  | 429 => "Too Many Requests"
  | 431 => "Request Header Fields Too Large"
  | 451 => "Unavailable For Legal Reasons"
  | 500 => "Internal Server Error"
  | 501 => "Not Implemented"
  | 502 => "Bad Gateway"
  | 503 => "Service Unavailable"
  | 504 => "Gateway Timeout"
  | 505 => "HTTP Version Not Supported"
  | 506 => "Variant Also Negotiates"
  | 507 => "Insufficient Storage"
  | 508 => "Loop Detected"
  | 510 => "Not Extended"
  | 511 => "Network Authentication Required"
  | _ => EmptyString
  end.

(** [http.Header], a map from (canonical) names to their values. *)
Abbreviation Header := (gmap string (list string)).

Definition Header_Set (h : Header) (key value : string) : Header :=
  <[key := [value]]> h.

Definition Header_Add (h : Header) (key value : string) : Header :=
  <[key := (default [] (h !! key) ++ [value])%list]> h.

Definition Header_Get (h : Header) (key : string) : string :=
  match h !! key with
  | Some (v :: _) => v
  | _ => EmptyString
  end.

(** The server's [http.ResponseWriter]: the header map the handler
    edits, the status line and headers once they are written ([Sent]),
    and the body written so far. *)
Record ResponseWriter : Type := {
  header : Header;
  Sent : option (Z * Header);
  Body : string
}.

Definition NewResponseWriter : ResponseWriter :=
  {| header := ∅; Sent := None; Body := EmptyString |}.

Definition setHeader (w : ResponseWriter) (h : Header) : ResponseWriter :=
  {| header := h; Sent := Sent w; Body := Body w |}.

(** [w.WriteHeader(code)]: the first call fixes the status and the
    headers; a code outside [100,999] panics; an informational code
    (1xx other than 101) leaves the final response open. *)
Definition WriteHeader (w : ResponseWriter) (code : Z) : result ResponseWriter :=
  match Sent w with
  | Some _ => Ok w
  | None =>
      if (code <? 100) || (999 <? code) then Panic "invalid WriteHeader code"
      else if (100 <=? code) && (code <=? 199) && negb (code =? 101) then Ok w
      else Ok {| header := header w; Sent := Some (code, header w); Body := Body w |}
  end.

(** No body goes with a 1xx, 204 or 304 status. *)
Definition bodyAllowedForStatus (status : Z) : bool :=
  negb (((100 <=? status) && (status <=? 199)) || (status =? 204) || (status =? 304)).

(** [w.Write(b)]: writes the header with status 200 first when none was
    written. *)
Definition Write (w : ResponseWriter) (b : string) : ResponseWriter :=
  let w1 :=
    match Sent w with
    | Some _ => w
    | None => {| header := header w; Sent := Some (200, header w); Body := Body w |}
    end in
  match Sent w1 with
  | Some (status, _) =>
      if bodyAllowedForStatus status
      then {| header := header w1; Sent := Sent w1; Body := Body w1 ++ b |}
      else w1
  | None => w1
  end.

(** The response as the client receives it once the handler returns:
    status 200 and the headers as they stand when nothing was written. *)
Definition StatusCode (w : ResponseWriter) : Z :=
  match Sent w with Some (code, _) => code | None => 200 end.

Definition SentHeader (w : ResponseWriter) : Header :=
  match Sent w with Some (_, h) => h | None => header w end.

Record Request : Type := {
  Method : string;
  URL_Path : string;
  Header_ : Header
}.

Definition setPath (r : Request) (p : string) : Request :=
  {| Method := Method r; URL_Path := p; Header_ := Header_ r |}.

End http.

(** ** package server *)

Module server.

Import http.

(** FileStat stores and display a file's information as JSON. *)
Module FileStat.

Record t : Type := {
  Name : string;
  Path : string;
  Size : Z;
  MTime : time.Time
}.

Definition MarshalJSON (file : t) : option string :=
  json.Marshal [
    ("type", json.String_ "file");
    ("name", json.String_ (Name file));
    ("path", json.String_ (Path file));
    ("size", json.Int (Size file));
    ("mtime", json.Time (MTime file))
  ].

End FileStat.

(** DirStat stores and display a directory's information as JSON. *)
Module DirStat.

Record t : Type := {
  Name : string;
  Path : string;
  MTime : time.Time
}.

Definition MarshalJSON (file : t) : option string :=
  json.Marshal [
    ("type", json.String_ "directory");
    ("name", json.String_ (Name file));
    ("path", json.String_ (Path file));
    ("mtime", json.Time (MTime file))
  ].

End DirStat.

(** StatError represents an error in JSON format. *)
Module StatError.

Record t : Type := {
  Code : Z;
  Path : string
}.

Definition Message (err : t) : string :=
  let msg := StatusText (Code err) in
  if String.eqb msg EmptyString then "unknown error" else msg.

Definition Error (err : t) : string :=
  "error " ++ strconv.Itoa (Code err) ++ ": " ++ Message err.

Definition MarshalJSON (err : t) : option string :=
  json.Marshal [
    ("status", json.String_ "error");
    ("code", json.Int (Code err));
    ("path", json.String_ (Path err));
    ("message", json.String_ (Message err))
  ].

End StatError.

Definition NewStatError (code : Z) (path : string) : StatError.t :=
  {| StatError.Code := code; StatError.Path := path |}.

(** The dynamic values that go through [interface{}] here. *)
Inductive any : Type :=
| nil
| string_ (s : string)
| FileStat_ (f : FileStat.t)
| DirStat_ (d : DirStat.t).

(** The dynamic types of the [error] values: [*os.PathError] and
    [*StatError]. *)
Inductive error : Type :=
| PathError_ (e : os.PathError)
| StatError_ (e : StatError.t).

Definition error_Error (err : error) : string :=
  match err with
  | PathError_ e => os.PathError_Error e
  | StatError_ e => StatError.Error e
  end.

(** *** The world a handler runs in

    The file system, and the calls made on it and on the log so far. *)

Inductive Event : Type :=
| Stat (name : string)
| OpenFile (name : string) (flag perm : Z)
| Close (f : os.File)
| Printf (format : string) (v : any).

Record World : Type := {
  fs : os.FS;
  trace : list Event
}.

Definition emit (ev : Event) (σ : World) : World :=
  {| fs := fs σ; trace := (trace σ ++ [ev])%list |}.

(** [os.Stat(name)]: on failure the error is a [*PathError]. *)
Definition os_Stat (name : string) (σ : World)
  : option os.FileInfo * option error * World :=
  match os.stat (fs σ) name with
  | inl fi => (Some fi, None, emit (Stat name) σ)
  | inr e =>
      (None,
       Some (PathError_ {| os.Op := "stat"; os.Path := name; os.Err := e |}),
       emit (Stat name) σ)
  end.

(** [os.OpenFile(name, flag, perm)]: on failure the error is a
    [*PathError]. *)
Definition os_OpenFile (name : string) (flag perm : Z) (σ : World)
  : option os.File * option error * World :=
  match os.open (fs σ) name flag perm with
  | None => (Some {| os.file_name := name |}, None, emit (OpenFile name flag perm) σ)
  | Some e =>
      (None,
       Some (PathError_ {| os.Op := "open"; os.Path := name; os.Err := e |}),
       emit (OpenFile name flag perm) σ)
  end.

Definition File_Close (f : os.File) (σ : World) : World := emit (Close f) σ.

Definition log_Printf (format : string) (v : any) (σ : World) : World :=
  emit (Printf format v) σ.

(** [os.IsNotExist(err)]: the error under a [*PathError] is [ENOENT]. *)
Definition os_IsNotExist (err : option error) : bool :=
  match err with
  | Some (PathError_ e) => bool_decide (os.Err e = syscall.ENOENT)
  | _ => false
  end.

(** [os.IsPermission(err)]: the error under a [*PathError] is [EACCES]
    or [EPERM]. *)
Definition os_IsPermission (err : option error) : bool :=
  match err with
  | Some (PathError_ e) =>
      bool_decide (os.Err e = syscall.EACCES) || bool_decide (os.Err e = syscall.EPERM)
  | _ => false
  end.

(** [req.(string)]: a type assertion with one result panics on another
    dynamic type. *)
Definition assert_string (v : any) : result string :=
  match v with
  | string_ s => Ok s
  | _ => Panic "interface conversion: interface {} is not string"
  end.

(** The two-result type assertion of [err] to a pointer to
    [os.PathError]: [nil] on another dynamic type. *)
Definition assert_PathError (err : error) : option os.PathError :=
  match err with
  | PathError_ e => Some e
  | _ => None
  end.

(** A method call or a field read through a [nil] pointer or interface. *)
Definition deref {A : Type} (p : option A) : result A :=
  match p with
  | Some a => Ok a
  | None => Panic "invalid memory address or nil pointer dereference"
  end.

Definition Context : Type := unit.
Definition context_Background : Context := tt.

Definition Endpoint : Type :=
  Context -> any -> World -> result (any * option error * World).

Definition statsEndpoint : Endpoint := fun ctx req σ =>
  path ← assert_string req;
  let '(stat, err, σ) := os_Stat path σ in
  (* if file not found *)
  if os_IsNotExist err then
    mret (nil, Some (StatError_ (NewStatError StatusNotFound path)), σ)
  else
  match err with
  (* permission problem *)
  | Some e =>
      perr ← deref (assert_PathError e);
      if String.eqb (syscall.Error (os.Err perr)) os.ErrPermission_Error
      then mret (nil, Some (StatError_ (NewStatError StatusForbidden path)), σ)
      else mret (nil, Some e, σ)
  | None =>
      stat ← deref stat;
      (* for files *)
      if os.IsRegular (os.Mode stat) then
        (* test permission *)
        let '(file, err, σ) := os_OpenFile path os.O_RDONLY 292 σ in
        match err with
        | Some e =>
            perr ← deref (assert_PathError e);
            if String.eqb (syscall.Error (os.Err perr)) os.ErrPermission_Error
            then mret (nil, Some (StatError_ (NewStatError StatusForbidden path)), σ)
            else mret (nil, Some e, σ)
        | None =>
            file ← deref file;
            let σ := File_Close file σ in (* close immediately *)
            mret (FileStat_ {| FileStat.Name := os.Name stat;
                               FileStat.Path := path;
                               FileStat.Size := os.Size stat;
                               FileStat.MTime := os.ModTime stat |},
                  None, σ)
        end
      (* for directories *)
      else if os.IsDir (os.Mode stat) then
        mret (DirStat_ {| DirStat.Name := os.Name stat;
                          DirStat.Path := path;
                          DirStat.MTime := os.ModTime stat |},
              None, σ)
      else mret (nil, None, σ)
  end.

(** [json.Marshal(v)] for a value held in an [interface{}]. *)
Definition marshalAny (v : any) : option string :=
  match v with
  | nil => Some "null"
  | string_ s => Some (json.appendString s)
  | FileStat_ f => FileStat.MarshalJSON f
  | DirStat_ d => DirStat.MarshalJSON d
  end.

(** [json.NewEncoder(w).Encode(v)], given what [json.Marshal(v)] gives:
    the JSON text and a newline are written, or nothing is written and
    the error is returned. *)
Definition Encode (w : ResponseWriter) (b : option string)
  : ResponseWriter * bool :=
  match b with
  | Some b => (Write w (b ++ String "010"%char EmptyString), false)
  | None => (w, true)
  end.

Definition Handler : Type :=
  ResponseWriter -> Request -> World -> result (ResponseWriter * Request * World).

Definition handleEndpoint (endpoint : Endpoint) : Handler := fun w r σ =>
  let ctx := context_Background in
  (* handle path request *)
  '(resp, err, σ) ← endpoint ctx (string_ (URL_Path r)) σ;
  (* handle error *)
  match err with
  | Some (StatError_ serr) =>
      let w := setHeader w (Header_Set (header w) "Content-Type" "application/json") in
      w ← WriteHeader w (StatError.Code serr);
      let '(w, _) := Encode w (StatError.MarshalJSON serr) in
      mret (w, r, σ)
  | Some err =>
      let statusCode := StatusInternalServerError in
      let w := setHeader w (Header_Set (header w) "Content-Type" "application/json") in
      w ← WriteHeader w statusCode;
      let '(w, _) := Encode w (json.Marshal [
        ("code", json.Int statusCode);
        ("status", json.String_ "error");
        ("message", json.String_ (error_Error err))
      ]) in
      mret (w, r, σ)
  | None =>
      (* handle normal response *)
      let w := setHeader w (Header_Set (header w) "Content-Type" "application/json") in
      let '(w, _) := Encode w (marshalAny resp) in
      let σ := log_Printf "resp: %#v" resp σ in
      mret (w, r, σ)
  end.

Definition Middleware : Type := Handler -> Handler.

Section ServeAPI.

(** [http.Redirect], and the type behind [http.FileSystem]. *)
Variable Redirect : ResponseWriter -> Request -> string -> Z -> ResponseWriter.
Variable FileSystem : Type.

(** ServeAPI generates a middleware to serve API for file / directory
    information query. *)
Definition ServeAPI (path : string) (root : FileSystem) : Middleware :=
  let path := strings.TrimRight path "/" in (* strip trailing slash *)
  let pathWithSlash := path ++ "/" in
  let pathLen := strings.len pathWithSlash in
  (* wrap endpoints *)
  let handleStats := handleEndpoint statsEndpoint in
  fun inner => fun w r σ =>
    (* serve API endpoint *)
    if String.eqb (URL_Path r) path then
      mret (Redirect w r pathWithSlash StatusMovedPermanently, r, σ)
    else if strings.HasPrefix (URL_Path r) pathWithSlash then
      rest ← slice_from (URL_Path r) pathLen;
      let r := setPath r (strings.TrimRight rest "/") in (* strip base path *)
      (* stats of file / directory *)
      if strings.HasPrefix (URL_Path r) "stats/" then
        rest ← slice_from (URL_Path r) 6;
        let r := setPath r rest in
        handleStats w r σ
      else
        (* if no matching endpoint *)
        let statusCode := StatusNotFound in
        let w := setHeader w (Header_Add (header w) "Content-Type" "application/json") in
        w ← WriteHeader w statusCode;
        let '(w, _) := Encode w (json.Marshal [
          ("code", json.Int statusCode);
          ("status", json.String_ "error");
          ("message", json.String_ "not a valid API endpoint")
        ]) in
        mret (w, r, σ)
    else
      (* server file / directory info query at the URL *)
      let 'tt :=
        if String.eqb (Header_Get (Header_ r) "Content-Type") "application/goserve+json"
        then tt else tt in
      (* defers to inner handler *)
      inner w r σ.

End ServeAPI.

End server.

Import server http.

(** ** Texts and worlds used in the statements and examples *)

Definition newline : string := String "010"%char EmptyString.

(** A JSON string literal of a text that needs no escape. *)
Definition q (s : string) : string := json.quote ++ s ++ json.quote.

Definition ContentType : string := "Content-Type".
Definition applicationJSON : string := "application/json".

(** The response a client sees: status, Content-Type and body. *)
Definition responds (w' : ResponseWriter) (code : Z) (body : string) : Prop :=
  StatusCode w' = code /\
  SentHeader w' !! ContentType = Some [applicationJSON] /\
  Body w' = body.

(** The JSON response written over [w]: Content-Type set, then the
    status, then the body. *)
Definition reply (w : ResponseWriter) (code : Z) (body : string) : ResponseWriter :=
  let h := Header_Set (header w) ContentType applicationJSON in
  {| header := h; Sent := Some (code, h); Body := Body w ++ body |}.

(** What a handler's run leaves in the response, and what a resolver's
    run gives back, leaving the log out. *)
Definition response (run : result (ResponseWriter * Request * World))
  : result (ResponseWriter * os.FS) :=
  '(w, _, σ) ← run; mret (w, fs σ).

Definition resolved (run : result (any * option error * World))
  : result (any * option error * os.FS) :=
  '(v, err, σ) ← run; mret (v, err, fs σ).

(** The body is one JSON object with these fields, and a newline. *)
Definition object (fields : list (string * json.value)) (body : string) : Prop :=
  exists b, json.Marshal fields = Some b /\ body = b ++ newline.

(** The target path of a request under [base/stats/]: what is left of
    the URL path after [base/], without trailing slashes, is
    [stats/target]. *)
Definition endpoint_path (base url : string) : string :=
  strings.TrimRight
    (strings.drop (String.length (strings.TrimRight base "/" ++ "/")) url) "/".

(** The JSON text of a file descriptor whose name and path need no
    escape. *)
Definition file_json (name path size mtime : string) : string :=
  "{" ++ q "type" ++ ":" ++ q "file" ++ "," ++ q "name" ++ ":" ++ q name ++ "," ++
  q "path" ++ ":" ++ q path ++ "," ++ q "size" ++ ":" ++ size ++ "," ++
  q "mtime" ++ ":" ++ q mtime ++ "}".

(** A modification time that has an RFC 3339 form. *)
Definition rfc3339 (t : time.Time) : Prop :=
  0 <= time.Year t <= 9999 /\ -86400 < time.Offset t < 86400.

Module Demo.

Definition GET (path : string) : Request :=
  {| Method := "GET"; URL_Path := path; Header_ := ∅ |}.

Definition newYear2023 : time.Time :=
  {| time.Year := 2023; time.Month := 1; time.Day := 1;
     time.Hour := 0; time.Minute := 0; time.Second := 0;
     time.Nanosecond := 0; time.Offset := 0 |}.

Definition newYear10000 : time.Time :=
  {| time.Year := 10000; time.Month := 1; time.Day := 1;
     time.Hour := 0; time.Minute := 0; time.Second := 0;
     time.Nanosecond := 0; time.Offset := 0 |}.

Definition readme : os.FileInfo :=
  {| os.Name := "readme.txt"; os.Size := 1024; os.Mode := 420;
     os.ModTime := newYear2023 |}.

Definition shadow : os.FileInfo :=
  {| os.Name := "shadow"; os.Size := 1187; os.Mode := 416;
     os.ModTime := newYear2023 |}.

Definition guarded : os.FileInfo :=
  {| os.Name := "guarded"; os.Size := 7; os.Mode := 420;
     os.ModTime := newYear2023 |}.

Definition future : os.FileInfo :=
  {| os.Name := "future"; os.Size := 0; os.Mode := 420;
     os.ModTime := newYear10000 |}.

Definition tmp : os.FileInfo :=
  {| os.Name := "tmp"; os.Size := 4096; os.Mode := Z.lor os.ModeDir 511;
     os.ModTime := newYear2023 |}.

Definition null : os.FileInfo :=
  {| os.Name := "null"; os.Size := 0;
     os.Mode := Z.lor os.ModeDevice (Z.lor os.ModeCharDevice 438);
     os.ModTime := newYear2023 |}.

Definition entries : list (string * (os.FileInfo + syscall.Errno)) :=
  [ ("/tmp/readme.txt", inl readme);
    ("tmp/readme.txt", inl readme);
    ("/etc/shadow", inl shadow);
    ("/srv/guarded", inl guarded);
    ("/tmp/future", inl future);
    ("/tmp", inl tmp);
    ("/dev/null", inl null);
    ("/root/.profile", inr syscall.EACCES);
    ("/mnt/nfs/data", inr syscall.EIO) ].

Fixpoint lookup_entry {A} (name : string) (l : list (string * A)) : option A :=
  match l with
  | [] => None
  | (n, a) :: l' => if String.eqb name n then Some a else lookup_entry name l'
  end.

(** A file system with the working directory [/]: a regular file
    [/tmp/readme.txt], a file that cannot be read, one whose opening is
    not permitted, one from the year 10000, a directory, a device, and
    paths that cannot be examined. *)
Definition disk : os.FS :=
  {| os.stat := fun name =>
       match lookup_entry name entries with
       | Some r => r
       | None => inr syscall.ENOENT
       end;
     os.open := fun name _ _ =>
       if String.eqb name "/etc/shadow" then Some syscall.EACCES
       else if String.eqb name "/srv/guarded" then Some syscall.EPERM
       else match lookup_entry name entries with
            | Some (inl _) => None
            | Some (inr e) => Some e
            | None => Some syscall.ENOENT
            end |}.

Definition world : World := {| fs := disk; trace := [] |}.

(** Some [http.Redirect], [http.FileSystem] and inner handler. *)
Definition Redirect (w : ResponseWriter) (r : Request) (url : string) (code : Z)
  : ResponseWriter :=
  {| header := Header_Set (header w) "Location" url;
     Sent := Some (code, Header_Set (header w) "Location" url);
     Body := Body w |}.

Definition teapot : Handler := fun w r σ =>
  w ← WriteHeader w 418; mret (Write w "short and stout", r, σ).

Definition serve : Handler := ServeAPI Redirect unit "/api" tt teapot.

End Demo.

(** ** Notions for the behaviour beyond the claims *)

(** The last byte of a string. *)
Fixpoint last_byte (s : string) : option ascii :=
  match s with
  | EmptyString => None
  | String c EmptyString => Some c
  | String _ s' => last_byte s'
  end.

(** No byte of [s] is a control byte (below 0x20): [s] is within one
    line. *)
Fixpoint printable (s : string) : bool :=
  match s with
  | EmptyString => true
  | String c s' => (32 <=? utf8.byte c) && printable s'
  end.

(** The first [k] bytes of [s], as far as it has them, are 0x80 or
    more. *)
Fixpoint high (k : nat) (s : string) : bool :=
  match k, s with
  | O, _ => true
  | S _, EmptyString => true
  | S k', String c s' => (128 <=? utf8.byte c) && high k' s'
  end.

Definition isHex (c : ascii) : bool :=
  let b := utf8.byte c in
  ((48 <=? b) && (b <=? 57)) || ((65 <=? b) && (b <=? 70)) ||
  ((97 <=? b) && (b <=? 102)).

(** The one-byte escapes of JSON: quote, backslash, slash, b, f, n, r, t. *)
Definition simpleEscape (c : ascii) : bool :=
  let b := utf8.byte c in
  (b =? 34) || (b =? 92) || (b =? 47) || (b =? 98) || (b =? 102) ||
  (b =? 110) || (b =? 114) || (b =? 116).

(** What may stand between the quotes of a JSON string literal
    (RFC 8259): bytes from 0x20 on other than the quote and the
    backslash, and the escapes, a backslash before one of the one-byte
    escapes or before [u] and four hexadecimal digits. *)
Fixpoint validChars (s : string) : bool :=
  match s with
  | EmptyString => true
  | String c rest =>
      if utf8.byte c =? 92 then
        match rest with
        | EmptyString => false
        | String e rest1 =>
            if simpleEscape e then validChars rest1
            else if utf8.byte e =? 117 then
              match rest1 with
              | String h1 (String h2 (String h3 (String h4 rest2))) =>
                  isHex h1 && isHex h2 && isHex h3 && isHex h4 && validChars rest2
              | _ => false
              end
            else false
        end
      else (32 <=? utf8.byte c) && negb (utf8.byte c =? 34) && validChars rest
  end.

(** No byte of [s] is a colon. *)
Fixpoint no_colon (s : string) : bool :=
  match s with
  | EmptyString => true
  | String c s' => negb (Ascii.eqb c ":") && no_colon s'
  end.

(** The answer of the router to a path under the base that names no
    endpoint, written over [w]. *)
Definition not_valid_endpoint (w : ResponseWriter) : ResponseWriter :=
  let h := Header_Add (header w) ContentType applicationJSON in
  {| header := h; Sent := Some (404, h);
     Body := Body w ++
       ("{" ++ q "code" ++ ":404," ++ q "status" ++ ":" ++ q "error" ++ "," ++
        q "message" ++ ":" ++ q "not a valid API endpoint" ++ "}") ++ newline |}.

(** The calls a run adds to the trace. *)
Definition calls (σ σ' : World) (evs : list Event) : Prop :=
  trace σ' = (trace σ ++ evs)%list.

(** ** The library models on small inputs *)

Example TrimRight_base : strings.TrimRight "/api//" "/" = "/api".
Proof. reflexivity. Qed.

Example TrimRight_inner_slash : strings.TrimRight "stats/tmp/" "/" = "stats/tmp".
Proof. reflexivity. Qed.

Example HasPrefix_stats : strings.HasPrefix "stats" "stats/" = false.
Proof. reflexivity. Qed.

Example slice_from_beyond : slice_from "abc" 4 = Panic "slice bounds out of range".
Proof. reflexivity. Qed.

Example appendString_html :
  json.appendString "a<b" = q (String "a" (json.backslash ++ "u003cb")).
Proof. reflexivity. Qed.

Example appendString_quote :
  json.appendString (q "x") =
    q (json.backslash ++ json.quote ++ "x" ++ json.backslash ++ json.quote).
Proof. reflexivity. Qed.

Example Time_fraction_and_zone :
  time.appendStrictRFC3339
    {| time.Year := 2023; time.Month := 6; time.Day := 9;
       time.Hour := 7; time.Minute := 5; time.Second := 3;
       time.Nanosecond := 120000000; time.Offset := -10800 |}
  = Some "2023-06-09T07:05:03.12-03:00".
Proof. reflexivity. Qed.

Example Time_year_10000 : time.appendStrictRFC3339 Demo.newYear10000 = None.
Proof. reflexivity. Qed.

Example Mode_device :
  os.IsRegular (os.Mode Demo.null) = false /\ os.IsDir (os.Mode Demo.null) = false.
Proof. split; reflexivity. Qed.

Example StatError_Error_404 :
  StatError.Error (NewStatError 404 "x") = "error 404: Not Found".
Proof. reflexivity. Qed.

(** [os.IsPermission] holds for [EACCES] and [EPERM]; the text of
    [os.ErrPermission] is that of [EACCES] only. *)
Lemma ErrPermission_text (e : syscall.Errno) :
  String.eqb (syscall.Error e) os.ErrPermission_Error = true <-> e = syscall.EACCES.
Proof. split; [destruct e; simpl; congruence | intros ->; reflexivity]. Qed.

Lemma os_IsPermission_spec (perr : os.PathError) :
  os_IsPermission (Some (PathError_ perr)) = true <->
  os.Err perr = syscall.EACCES \/ os.Err perr = syscall.EPERM.
Proof.
  simpl. rewrite orb_true_iff, !bool_decide_eq_true. reflexivity.
Qed.

(** ** Facts about the library models *)

Lemma bind_Ok {A B} (a : A) (k : A -> result B) : (Ok a ≫= k) = k a.
Proof. reflexivity. Qed.

Lemma HasPrefix_length s p :
  strings.HasPrefix s p = true -> (String.length p <= String.length s)%nat.
Proof.
  revert s. induction p as [|c p IH]; intros [|d s]; simpl; try lia; try discriminate.
  destruct (Ascii.eqb d c); [|discriminate]. intros H. apply IH in H. lia.
Qed.

Lemma length_append (s t : string) :
  String.length (s ++ t) = (String.length s + String.length t)%nat.
Proof. induction s as [|c s IH]; simpl; [reflexivity|]. now rewrite IH. Qed.

(** A path under [p/] is not [p] itself. *)
Lemma HasPrefix_slash_neq s p :
  strings.HasPrefix s (p ++ "/") = true -> String.eqb s p = false.
Proof.
  intros H. apply HasPrefix_length in H. rewrite length_append in H. simpl in H.
  apply String.eqb_neq. intros ->. lia.
Qed.

(** Slicing off a prefix that is there does not panic. *)
Lemma slice_from_prefix s p :
  strings.HasPrefix s p = true ->
  slice_from s (strings.len p) = Ok (strings.drop (String.length p) s).
Proof.
  intros H. apply HasPrefix_length in H. unfold slice_from, strings.len.
  rewrite Nat2Z.id.
  replace (0 <=? Z.of_nat (String.length p)) with true by (symmetry; apply Z.leb_le; lia).
  replace (Z.of_nat (String.length p) <=? Z.of_nat (String.length s)) with true
    by (symmetry; apply Z.leb_le; lia).
  reflexivity.
Qed.

Lemma WriteHeader_fresh w code :
  Sent w = None -> 200 <= code <= 999 ->
  WriteHeader w code =
    Ok {| header := header w; Sent := Some (code, header w); Body := Body w |}.
Proof.
  intros Hs Hc. unfold WriteHeader. rewrite Hs.
  replace (code <? 100) with false by (symmetry; apply Z.ltb_ge; lia).
  replace (999 <? code) with false by (symmetry; apply Z.ltb_ge; lia).
  replace (code <=? 199) with false by (symmetry; apply Z.leb_gt; lia).
  simpl. now rewrite andb_false_r.
Qed.

Lemma Write_fresh w b :
  Sent w = None ->
  Write w b = {| header := header w; Sent := Some (200, header w); Body := Body w ++ b |}.
Proof. intros Hs. unfold Write. rewrite Hs. reflexivity. Qed.

Lemma Write_sent w code h b :
  Sent w = Some (code, h) -> bodyAllowedForStatus code = true ->
  Write w b = {| header := header w; Sent := Sent w; Body := Body w ++ b |}.
Proof. intros Hs Hb. unfold Write. rewrite !Hs, Hb. reflexivity. Qed.

(** A time with an RFC 3339 form is marshalled. *)
Lemma appendStrictRFC3339_Some t :
  rfc3339 t -> time.appendStrictRFC3339 t = Some (time.appendFormatRFC3339 t).
Proof.
  intros [[Hy1 Hy2] [Ho1 Ho2]]. unfold time.appendStrictRFC3339.
  replace (time.Year t <? 0) with false by (symmetry; apply Z.ltb_ge; lia).
  replace (9999 <? time.Year t) with false by (symmetry; apply Z.ltb_ge; lia).
  simpl.
  replace (24 <=? _) with false; [reflexivity|].
  symmetry. apply Z.leb_gt.
  assert (Hq : -1440 < time.Offset t ÷ 60 < 1440).
  { split.
    - apply Z.lt_le_trans with (m := (-86399) ÷ 60); [reflexivity|].
      apply Z.quot_le_mono; lia.
    - apply Z.le_lt_trans with (m := 86399 ÷ 60); [|reflexivity].
      apply Z.quot_le_mono; lia. }
  apply Z.le_lt_trans with (m := 1439 ÷ 60); [|reflexivity].
  apply Z.quot_le_mono; lia.
Qed.

Lemma reply_responds w code body :
  responds (reply w code body) code (Body w ++ body).
Proof.
  unfold responds, reply, StatusCode, SentHeader, Header_Set. simpl.
  repeat split. apply lookup_insert_eq.
Qed.

(** ** The resolver, case by case *)

Section Resolver.

Variables (ctx : Context) (path : string) (σ : World).

Let statted : World := emit (Stat path) σ.
Let opened : World := emit (OpenFile path os.O_RDONLY 292) statted.

Lemma statsEndpoint_not_exist :
  os.stat (fs σ) path = inr syscall.ENOENT ->
  statsEndpoint ctx (string_ path) σ =
    Ok (nil, Some (StatError_ (NewStatError StatusNotFound path)), statted).
Proof. intros H. unfold statsEndpoint, os_Stat. simpl. now rewrite H. Qed.

Lemma statsEndpoint_stat_denied :
  os.stat (fs σ) path = inr syscall.EACCES ->
  statsEndpoint ctx (string_ path) σ =
    Ok (nil, Some (StatError_ (NewStatError StatusForbidden path)), statted).
Proof. intros H. unfold statsEndpoint, os_Stat. simpl. now rewrite H. Qed.

Lemma statsEndpoint_stat_other e :
  os.stat (fs σ) path = inr e -> e <> syscall.ENOENT -> e <> syscall.EACCES ->
  statsEndpoint ctx (string_ path) σ =
    Ok (nil,
        Some (PathError_ {| os.Op := "stat"; os.Path := path; os.Err := e |}),
        statted).
Proof.
  intros H Hn Hp. unfold statsEndpoint, os_Stat. simpl. rewrite H. simpl.
  rewrite bool_decide_eq_false_2 by assumption.
  destruct e; try congruence; reflexivity.
Qed.

Lemma statsEndpoint_file fi :
  os.stat (fs σ) path = inl fi -> os.IsRegular (os.Mode fi) = true ->
  os.open (fs σ) path os.O_RDONLY 292 = None ->
  statsEndpoint ctx (string_ path) σ =
    Ok (FileStat_ {| FileStat.Name := os.Name fi; FileStat.Path := path;
                     FileStat.Size := os.Size fi; FileStat.MTime := os.ModTime fi |},
        None,
        File_Close {| os.file_name := path |} opened).
Proof.
  intros H Hr Ho. unfold statsEndpoint, os_Stat, os_OpenFile. simpl.
  rewrite H. simpl. rewrite Hr. simpl. now rewrite Ho.
Qed.

Lemma statsEndpoint_open_denied fi :
  os.stat (fs σ) path = inl fi -> os.IsRegular (os.Mode fi) = true ->
  os.open (fs σ) path os.O_RDONLY 292 = Some syscall.EACCES ->
  statsEndpoint ctx (string_ path) σ =
    Ok (nil, Some (StatError_ (NewStatError StatusForbidden path)), opened).
Proof.
  intros H Hr Ho. unfold statsEndpoint, os_Stat, os_OpenFile. simpl.
  rewrite H. simpl. rewrite Hr. simpl. now rewrite Ho.
Qed.

Lemma statsEndpoint_open_other fi e :
  os.stat (fs σ) path = inl fi -> os.IsRegular (os.Mode fi) = true ->
  os.open (fs σ) path os.O_RDONLY 292 = Some e -> e <> syscall.EACCES ->
  statsEndpoint ctx (string_ path) σ =
    Ok (nil,
        Some (PathError_ {| os.Op := "open"; os.Path := path; os.Err := e |}),
        opened).
Proof.
  intros H Hr Ho Hp. unfold statsEndpoint, os_Stat, os_OpenFile. simpl.
  rewrite H. simpl. rewrite Hr. simpl. rewrite Ho. simpl.
  destruct e; try congruence; reflexivity.
Qed.

Lemma statsEndpoint_dir fi :
  os.stat (fs σ) path = inl fi -> os.IsRegular (os.Mode fi) = false ->
  os.IsDir (os.Mode fi) = true ->
  statsEndpoint ctx (string_ path) σ =
    Ok (DirStat_ {| DirStat.Name := os.Name fi; DirStat.Path := path;
                    DirStat.MTime := os.ModTime fi |},
        None, statted).
Proof.
  intros H Hr Hd. unfold statsEndpoint, os_Stat. simpl.
  rewrite H. simpl. now rewrite Hr, Hd.
Qed.

Lemma statsEndpoint_irregular fi :
  os.stat (fs σ) path = inl fi -> os.IsRegular (os.Mode fi) = false ->
  os.IsDir (os.Mode fi) = false ->
  statsEndpoint ctx (string_ path) σ = Ok (nil, None, statted).
Proof.
  intros H Hr Hd. unfold statsEndpoint, os_Stat. simpl.
  rewrite H. simpl. now rewrite Hr, Hd.
Qed.

End Resolver.

(** ** The encoder, case by case *)

Section Encoder.

Variables (endpoint : Endpoint) (w : ResponseWriter) (r : Request) (σ σ' : World).
Hypothesis fresh : Sent w = None.

Lemma handleEndpoint_StatError resp serr b :
  endpoint context_Background (string_ (URL_Path r)) σ =
    Ok (resp, Some (StatError_ serr), σ') ->
  200 <= StatError.Code serr <= 999 ->
  bodyAllowedForStatus (StatError.Code serr) = true ->
  StatError.MarshalJSON serr = Some b ->
  handleEndpoint endpoint w r σ =
    Ok (reply w (StatError.Code serr) (b ++ newline), r, σ').
Proof.
  intros He Hc Hb Hm. unfold handleEndpoint. rewrite He, bind_Ok.
  rewrite WriteHeader_fresh by (simpl; assumption). rewrite bind_Ok.
  rewrite Hm. unfold Encode.
  erewrite Write_sent; [reflexivity | reflexivity | exact Hb].
Qed.

Lemma handleEndpoint_PathError resp perr b :
  endpoint context_Background (string_ (URL_Path r)) σ =
    Ok (resp, Some (PathError_ perr), σ') ->
  json.Marshal [("code", json.Int StatusInternalServerError);
                ("status", json.String_ "error");
                ("message", json.String_ (os.PathError_Error perr))] = Some b ->
  handleEndpoint endpoint w r σ =
    Ok (reply w StatusInternalServerError (b ++ newline), r, σ').
Proof.
  intros He Hm. unfold handleEndpoint. rewrite He, bind_Ok.
  rewrite WriteHeader_fresh by (simpl; first [assumption | unfold StatusInternalServerError; lia]).
  rewrite bind_Ok. simpl error_Error. rewrite Hm. reflexivity.
Qed.

Lemma handleEndpoint_value resp b :
  endpoint context_Background (string_ (URL_Path r)) σ = Ok (resp, None, σ') ->
  marshalAny resp = Some b ->
  handleEndpoint endpoint w r σ =
    Ok (reply w 200 (b ++ newline), r, log_Printf "resp: %#v" resp σ').
Proof.
  intros He Hm. unfold handleEndpoint. rewrite He, bind_Ok, Hm. unfold Encode.
  rewrite Write_fresh by (simpl; assumption). reflexivity.
Qed.

Lemma handleEndpoint_unmarshalled resp :
  endpoint context_Background (string_ (URL_Path r)) σ = Ok (resp, None, σ') ->
  marshalAny resp = None ->
  handleEndpoint endpoint w r σ =
    Ok (setHeader w (Header_Set (header w) ContentType applicationJSON), r,
        log_Printf "resp: %#v" resp σ').
Proof.
  intros He Hm. unfold handleEndpoint. rewrite He, bind_Ok, Hm. reflexivity.
Qed.

End Encoder.

(** ** The router *)

Section Router.

Variable Redirect : ResponseWriter -> Request -> string -> Z -> ResponseWriter.
Variable FileSystem : Type.
Variables (base : string) (root : FileSystem) (inner : Handler).

Let path : string := strings.TrimRight base "/".

(** A request under [base/stats/] is handed to the stats handler with
    the rest of its path. *)
Lemma ServeAPI_stats w r σ :
  strings.HasPrefix (URL_Path r) (path ++ "/") = true ->
  strings.HasPrefix (endpoint_path base (URL_Path r)) "stats/" = true ->
  ServeAPI Redirect FileSystem base root inner w r σ =
    handleEndpoint statsEndpoint w
      (setPath r (strings.drop 6 (endpoint_path base (URL_Path r)))) σ.
Proof.
  intros Hp Hs. unfold ServeAPI. fold path.
  rewrite (HasPrefix_slash_neq _ _ Hp), Hp.
  rewrite (slice_from_prefix _ _ Hp), bind_Ok.
  unfold endpoint_path in Hs. fold path in Hs.
  cbn [URL_Path setPath]. rewrite Hs.
  pose proof (slice_from_prefix _ "stats/" Hs) as Hsl.
  change (strings.len "stats/") with 6 in Hsl. rewrite Hsl, bind_Ok.
  reflexivity.
Qed.

End Router.

(** ** The concrete scenario *)

(** A request of the examples that is under [/api/stats/]. *)
Ltac route_stats := unfold Demo.serve; rewrite ServeAPI_stats by reflexivity.

(** C1, as stated, fails: with base [/api], a regular file
    [/tmp/readme.txt] of 1024 bytes and the working directory [/], the
    request [/api/stats/tmp/readme.txt] has the resolver stat and open
    the relative path [tmp/readme.txt], and the body carries that path,
    not [/tmp/readme.txt]. *)
Lemma scenario_passes_relative_path :
  exists w' r' σ',
    Demo.serve NewResponseWriter (Demo.GET "/api/stats/tmp/readme.txt") Demo.world
      = Ok (w', r', σ') /\
    URL_Path r' = "tmp/readme.txt" /\
    firstn 2 (trace σ') =
      [Stat "tmp/readme.txt"; OpenFile "tmp/readme.txt" os.O_RDONLY 292] /\
    Body w' =
      file_json "readme.txt" "tmp/readme.txt" "1024" "2023-01-01T00:00:00Z" ++ newline /\
    Body w' <>
      file_json "readme.txt" "/tmp/readme.txt" "1024" "2023-01-01T00:00:00Z" /\
    Body w' <>
      file_json "readme.txt" "/tmp/readme.txt" "1024" "2023-01-01T00:00:00Z" ++ newline.
Proof.
  route_stats.
  erewrite handleEndpoint_value;
    [ | reflexivity | apply statsEndpoint_file with (fi := Demo.readme); reflexivity
      | reflexivity ].
  eexists _, _, _. split; [reflexivity|].
  repeat split; try reflexivity; vm_compute; discriminate.
Qed.

(** C1, amended: the request [/api/stats/tmp/readme.txt] under base
    [/api] runs the resolver on the relative path [tmp/readme.txt]; when
    that is a regular file [readme.txt] of 1024 bytes, modified
    2023-01-01T00:00:00Z and readable, the response is 200 with the file
    object whose path is [tmp/readme.txt], and a newline. *)
Theorem scenario_relative_path
    (Redirect : ResponseWriter -> Request -> string -> Z -> ResponseWriter)
    (FileSystem : Type) (root : FileSystem) (inner : Handler)
    (hdr : Header) (mode : os.FileMode) (σ : World) :
  let r := {| Method := "GET"; URL_Path := "/api/stats/tmp/readme.txt";
              Header_ := hdr |} in
  os.stat (fs σ) "tmp/readme.txt" =
    inl {| os.Name := "readme.txt"; os.Size := 1024; os.Mode := mode;
           os.ModTime := Demo.newYear2023 |} ->
  os.IsRegular mode = true ->
  os.open (fs σ) "tmp/readme.txt" os.O_RDONLY 292 = None ->
  ServeAPI Redirect FileSystem "/api" root inner NewResponseWriter r σ =
    handleEndpoint statsEndpoint NewResponseWriter (setPath r "tmp/readme.txt") σ /\
  exists w' σ',
    ServeAPI Redirect FileSystem "/api" root inner NewResponseWriter r σ =
      Ok (w', setPath r "tmp/readme.txt", σ') /\
    responds w' 200
      (file_json "readme.txt" "tmp/readme.txt" "1024" "2023-01-01T00:00:00Z"
       ++ newline).
Proof.
  intros r Hstat Hreg Hopen.
  assert (Hroute : ServeAPI Redirect FileSystem "/api" root inner NewResponseWriter r σ =
    handleEndpoint statsEndpoint NewResponseWriter (setPath r "tmp/readme.txt") σ)
    by (rewrite ServeAPI_stats by reflexivity; reflexivity).
  split; [exact Hroute|]. rewrite Hroute.
  erewrite handleEndpoint_value;
    [ | reflexivity | exact (statsEndpoint_file _ _ _ _ Hstat Hreg Hopen) | reflexivity ].
  eexists _, _. split; [reflexivity|]. apply reply_responds.
Qed.

Lemma scenario_relative_path_witness :
  exists w' σ',
    Demo.serve NewResponseWriter (Demo.GET "/api/stats/tmp/readme.txt") Demo.world =
      Ok (w', setPath (Demo.GET "/api/stats/tmp/readme.txt") "tmp/readme.txt", σ') /\
    responds w' 200
      (file_json "readme.txt" "tmp/readme.txt" "1024" "2023-01-01T00:00:00Z"
       ++ newline).
Proof.
  apply (scenario_relative_path Demo.Redirect unit tt Demo.teapot ∅ 420 Demo.world);
    reflexivity.
Defined.

(** The absolute path is reached with a doubled slash: the request
    [/api/stats//tmp/readme.txt] resolves [/tmp/readme.txt]. *)
Example scenario_doubled_slash :
  exists w' r' σ',
    Demo.serve NewResponseWriter (Demo.GET "/api/stats//tmp/readme.txt") Demo.world
      = Ok (w', r', σ') /\
    URL_Path r' = "/tmp/readme.txt" /\
    responds w' 200
      (file_json "readme.txt" "/tmp/readme.txt" "1024" "2023-01-01T00:00:00Z"
       ++ newline).
Proof.
  route_stats.
  erewrite handleEndpoint_value;
    [ | reflexivity | apply statsEndpoint_file with (fi := Demo.readme); reflexivity
      | reflexivity ].
  eexists _, _, _. split; [reflexivity|]. split; [reflexivity|]. apply reply_responds.
Qed.

(** ** Errors of stat and open *)

(** C2: when stat fails with an error that is neither a does-not-exist
    error ([os.IsNotExist]) nor a permission error ([os.IsPermission]),
    the resolver returns normally, with that error as it is (no
    descriptor, no [StatError]), and the encoder answers 500 with the
    envelope of code 500, status "error" and the text of the error as
    message. *)
Theorem stat_failure_unclassified
    (ctx : Context) (path : string) (σ : World) (e : syscall.Errno) :
  let err := PathError_ {| os.Op := "stat"; os.Path := path; os.Err := e |} in
  os.stat (fs σ) path = inr e ->
  os_IsNotExist (Some err) = false ->
  os_IsPermission (Some err) = false ->
  statsEndpoint ctx (string_ path) σ = Ok (nil, Some err, emit (Stat path) σ) /\
  forall (w : ResponseWriter) (r : Request),
    Sent w = None -> URL_Path r = path ->
    exists w' body,
      handleEndpoint statsEndpoint w r σ = Ok (w', r, emit (Stat path) σ) /\
      responds w' StatusInternalServerError (Body w ++ body) /\
      object [("code", json.Int 500); ("status", json.String_ "error");
              ("message", json.String_ ("stat " ++ path ++ ": " ++ syscall.Error e))]
             body.
Proof.
  intros err Hstat Hne Hperm. simpl in Hne, Hperm.
  apply bool_decide_eq_false_1 in Hne.
  assert (Hp : e <> syscall.EACCES).
  { intros ->. rewrite bool_decide_eq_true_2 in Hperm by reflexivity. discriminate. }
  split; [exact (statsEndpoint_stat_other ctx path σ e Hstat Hne Hp)|].
  intros w r Hfresh Hpath.
  eexists _, _. split; [|split; [apply reply_responds|]].
  - eapply handleEndpoint_PathError;
      [ exact Hfresh
      | rewrite Hpath; exact (statsEndpoint_stat_other _ path σ e Hstat Hne Hp)
      | reflexivity ].
  - eexists. split; reflexivity.
Qed.

Lemma stat_failure_unclassified_witness :
  statsEndpoint tt (string_ "/mnt/nfs/data") Demo.world =
    Ok (nil,
        Some (PathError_ {| os.Op := "stat"; os.Path := "/mnt/nfs/data";
                            os.Err := syscall.EIO |}),
        emit (Stat "/mnt/nfs/data") Demo.world).
Proof.
  apply (stat_failure_unclassified tt "/mnt/nfs/data" Demo.world syscall.EIO);
    reflexivity.
Defined.

(** C3, as stated, fails: the resolver returns neither a value nor an
    error for [/dev/null], and the body of the response is not empty. *)
Lemma device_body_not_empty :
  exists w' r' σ',
    statsEndpoint tt (string_ "/dev/null") Demo.world =
      Ok (nil, None, emit (Stat "/dev/null") Demo.world) /\
    Demo.serve NewResponseWriter (Demo.GET "/api/stats//dev/null") Demo.world
      = Ok (w', r', σ') /\
    URL_Path r' = "/dev/null" /\
    Body w' = "null" ++ newline /\
    Body w' <> EmptyString.
Proof.
  route_stats.
  erewrite handleEndpoint_value;
    [ | reflexivity
      | apply statsEndpoint_irregular with (fi := Demo.null); reflexivity
      | reflexivity ].
  eexists _, _, _. split.
  - apply statsEndpoint_irregular with (fi := Demo.null); reflexivity.
  - repeat split. discriminate.
Qed.

(** C3, amended: when stat succeeds on an entry that is neither a
    regular file nor a directory, the resolver returns neither a
    descriptor nor an error, and the response is 200 with the JSON value
    [null] and a newline as its body. *)
Theorem irregular_entry_null
    (ctx : Context) (path : string) (σ : World) (fi : os.FileInfo) :
  os.stat (fs σ) path = inl fi ->
  os.IsRegular (os.Mode fi) = false ->
  os.IsDir (os.Mode fi) = false ->
  statsEndpoint ctx (string_ path) σ = Ok (nil, None, emit (Stat path) σ) /\
  forall (w : ResponseWriter) (r : Request),
    Sent w = None -> URL_Path r = path ->
    exists w' σ',
      handleEndpoint statsEndpoint w r σ = Ok (w', r, σ') /\
      responds w' 200 (Body w ++ "null" ++ newline).
Proof.
  intros Hstat Hreg Hdir.
  split; [exact (statsEndpoint_irregular ctx path σ fi Hstat Hreg Hdir)|].
  intros w r Hfresh Hpath. eexists _, _. split; [|apply reply_responds].
  eapply handleEndpoint_value;
    [ exact Hfresh
    | rewrite Hpath; exact (statsEndpoint_irregular _ path σ fi Hstat Hreg Hdir)
    | reflexivity ].
Qed.

Lemma irregular_entry_null_witness :
  statsEndpoint tt (string_ "/dev/null") Demo.world =
    Ok (nil, None, emit (Stat "/dev/null") Demo.world).
Proof.
  apply (irregular_entry_null tt "/dev/null" Demo.world Demo.null); reflexivity.
Defined.

(** A file that stat, but not open, is allowed on ([EACCES], "permission
    denied") is forbidden: 403, and no descriptor. *)
Lemma open_denied_forbidden
    (ctx : Context) (path : string) (σ : World) (fi : os.FileInfo) :
  os.stat (fs σ) path = inl fi ->
  os.IsRegular (os.Mode fi) = true ->
  os.open (fs σ) path os.O_RDONLY 292 = Some syscall.EACCES ->
  let σ' := emit (OpenFile path os.O_RDONLY 292) (emit (Stat path) σ) in
  statsEndpoint ctx (string_ path) σ =
    Ok (nil, Some (StatError_ (NewStatError 403 path)), σ') /\
  forall (w : ResponseWriter) (r : Request),
    Sent w = None -> URL_Path r = path ->
    exists w' body,
      handleEndpoint statsEndpoint w r σ = Ok (w', r, σ') /\
      responds w' 403 (Body w ++ body) /\
      object [("status", json.String_ "error"); ("code", json.Int 403);
              ("path", json.String_ path); ("message", json.String_ "Forbidden")]
             body.
Proof.
  intros Hstat Hreg Hopen σ'.
  split; [exact (statsEndpoint_open_denied ctx path σ fi Hstat Hreg Hopen)|].
  intros w r Hfresh Hpath. eexists _, _. split; [|split; [apply reply_responds|]].
  - eapply (handleEndpoint_StatError _ _ _ _ _ Hfresh _ (NewStatError 403 path));
      [ rewrite Hpath; exact (statsEndpoint_open_denied _ path σ fi Hstat Hreg Hopen)
      | simpl; lia | reflexivity | reflexivity ].
  - eexists. split; reflexivity.
Qed.

(** C4 at a file whose opening fails with [EPERM]: a permission error
    for [os.IsPermission], whose text is not that of [os.ErrPermission];
    the resolver returns it unclassified and the response is 500, not
    403. *)
Theorem open_not_permitted_internal_error :
  let err := PathError_ {| os.Op := "open"; os.Path := "/srv/guarded";
                           os.Err := syscall.EPERM |} in
  os.stat Demo.disk "/srv/guarded" = inl Demo.guarded /\
  os.IsRegular (os.Mode Demo.guarded) = true /\
  os.open Demo.disk "/srv/guarded" os.O_RDONLY 292 = Some syscall.EPERM /\
  os_IsPermission (Some err) = true /\
  (exists σ', statsEndpoint tt (string_ "/srv/guarded") Demo.world =
                Ok (nil, Some err, σ')) /\
  exists w' r' σ',
    Demo.serve NewResponseWriter (Demo.GET "/api/stats//srv/guarded") Demo.world
      = Ok (w', r', σ') /\
    URL_Path r' = "/srv/guarded" /\
    StatusCode w' = 500.
Proof.
  intros err. repeat (split; [reflexivity|]). split.
  - eexists. apply statsEndpoint_open_other with (fi := Demo.guarded);
      [reflexivity | reflexivity | reflexivity | discriminate].
  - route_stats.
    erewrite handleEndpoint_PathError;
      [ | reflexivity
        | apply statsEndpoint_open_other with (fi := Demo.guarded);
          [reflexivity | reflexivity | reflexivity | discriminate]
        | reflexivity ].
    eexists _, _, _. repeat split.
Qed.

(** C5: when stat fails because the path does not exist, the resolver
    gives [StatError{404, path}] and the response is 404 with the error
    envelope whose message is "Not Found"; the message comes from the
    status code, and is "unknown error" for a code without a text. *)
Theorem not_exist_not_found
    (ctx : Context) (path : string) (σ : World) :
  os.stat (fs σ) path = inr syscall.ENOENT ->
  statsEndpoint ctx (string_ path) σ =
    Ok (nil, Some (StatError_ (NewStatError 404 path)), emit (Stat path) σ) /\
  StatError.Message (NewStatError 404 path) = "Not Found" /\
  (forall code p, StatusText code = EmptyString ->
     StatError.Message (NewStatError code p) = "unknown error") /\
  (forall code p, StatusText code <> EmptyString ->
     StatError.Message (NewStatError code p) = StatusText code) /\
  forall (w : ResponseWriter) (r : Request),
    Sent w = None -> URL_Path r = path ->
    exists w' body,
      handleEndpoint statsEndpoint w r σ = Ok (w', r, emit (Stat path) σ) /\
      responds w' 404 (Body w ++ body) /\
      object [("status", json.String_ "error"); ("code", json.Int 404);
              ("path", json.String_ path); ("message", json.String_ "Not Found")]
             body.
Proof.
  intros Hstat. split; [exact (statsEndpoint_not_exist ctx path σ Hstat)|].
  split; [reflexivity|]. split; [|split].
  - intros code p H. unfold StatError.Message. simpl. now rewrite H.
  - intros code p H. unfold StatError.Message. simpl.
    apply (proj2 (String.eqb_neq _ _)) in H. now rewrite H.
  - intros w r Hfresh Hpath. eexists _, _. split; [|split; [apply reply_responds|]].
    + eapply (handleEndpoint_StatError _ _ _ _ _ Hfresh _ (NewStatError 404 path));
        [ rewrite Hpath; exact (statsEndpoint_not_exist _ path σ Hstat)
        | simpl; lia | reflexivity | reflexivity ].
    + eexists. split; reflexivity.
Qed.

Lemma not_exist_not_found_witness :
  statsEndpoint tt (string_ "/tmp/missing") Demo.world =
    Ok (nil, Some (StatError_ (NewStatError 404 "/tmp/missing")),
        emit (Stat "/tmp/missing") Demo.world).
Proof.
  apply (not_exist_not_found tt "/tmp/missing" Demo.world). reflexivity.
Defined.

(** ** Descriptors *)

(** C6, as stated, fails: [/tmp/future], modified in the year 10000, is
    resolved to a file descriptor, its [MarshalJSON] fails, and the
    response is 200 with an empty body: no "type" field in it. *)
Lemma unmarshalled_descriptor_empty_body :
  exists f w' r' σ' σ'',
    statsEndpoint tt (string_ "/tmp/future") Demo.world = Ok (FileStat_ f, None, σ') /\
    FileStat.MarshalJSON f = None /\
    Demo.serve NewResponseWriter (Demo.GET "/api/stats//tmp/future") Demo.world
      = Ok (w', r', σ'') /\
    URL_Path r' = "/tmp/future" /\
    StatusCode w' = 200 /\
    Body w' = EmptyString.
Proof.
  route_stats.
  erewrite handleEndpoint_unmarshalled;
    [ | apply statsEndpoint_file with (fi := Demo.future); reflexivity
      | reflexivity ].
  eexists _, _, _, _, _. split.
  - apply statsEndpoint_file with (fi := Demo.future); reflexivity.
  - repeat split.
Qed.

(** C6, amended: for every resolution to a descriptor whose modification
    time has an RFC 3339 form (a year within 0..9999), the response is
    200 with Content-Type application/json and a body that is one
    object whose first field "type" is "file" for a [FileStat] and
    "directory" for a [DirStat]; the object of a directory has the
    fields type, name, path and mtime, and no size. *)
Theorem descriptor_response (w : ResponseWriter) (r : Request) (σ σ' : World) :
  Sent w = None ->
  (forall f : FileStat.t,
     statsEndpoint context_Background (string_ (URL_Path r)) σ =
       Ok (FileStat_ f, None, σ') ->
     rfc3339 (FileStat.MTime f) ->
     exists w' body σ'',
       handleEndpoint statsEndpoint w r σ = Ok (w', r, σ'') /\
       responds w' 200 (Body w ++ body) /\
       object [("type", json.String_ "file");
               ("name", json.String_ (FileStat.Name f));
               ("path", json.String_ (FileStat.Path f));
               ("size", json.Int (FileStat.Size f));
               ("mtime", json.Time (FileStat.MTime f))] body) /\
  (forall d : DirStat.t,
     statsEndpoint context_Background (string_ (URL_Path r)) σ =
       Ok (DirStat_ d, None, σ') ->
     rfc3339 (DirStat.MTime d) ->
     exists w' body σ'',
       handleEndpoint statsEndpoint w r σ = Ok (w', r, σ'') /\
       responds w' 200 (Body w ++ body) /\
       object [("type", json.String_ "directory");
               ("name", json.String_ (DirStat.Name d));
               ("path", json.String_ (DirStat.Path d));
               ("mtime", json.Time (DirStat.MTime d))] body).
Proof.
  intros Hfresh. split.
  - intros f Hres Ht.
    assert (Hm : exists b, FileStat.MarshalJSON f = Some b).
    { unfold FileStat.MarshalJSON, json.Marshal. simpl.
      rewrite (appendStrictRFC3339_Some _ Ht). simpl. eexists. reflexivity. }
    destruct Hm as [b Hm].
    eexists _, _, _. split; [|split; [apply reply_responds|]].
    + eapply handleEndpoint_value; [exact Hfresh | exact Hres | exact Hm].
    + exists b. split; [exact Hm | reflexivity].
  - intros d Hres Ht.
    assert (Hm : exists b, DirStat.MarshalJSON d = Some b).
    { unfold DirStat.MarshalJSON, json.Marshal. simpl.
      rewrite (appendStrictRFC3339_Some _ Ht). simpl. eexists. reflexivity. }
    destruct Hm as [b Hm].
    eexists _, _, _. split; [|split; [apply reply_responds|]].
    + eapply handleEndpoint_value; [exact Hfresh | exact Hres | exact Hm].
    + exists b. split; [exact Hm | reflexivity].
Qed.

Lemma descriptor_response_witness :
  exists w' body σ'',
    handleEndpoint statsEndpoint NewResponseWriter (Demo.GET "/tmp") Demo.world =
      Ok (w', Demo.GET "/tmp", σ'') /\
    responds w' 200 (Body NewResponseWriter ++ body) /\
    object [("type", json.String_ "directory");
            ("name", json.String_ "tmp");
            ("path", json.String_ "/tmp");
            ("mtime", json.Time Demo.newYear2023)] body.
Proof.
  refine (proj2 (descriptor_response NewResponseWriter (Demo.GET "/tmp") Demo.world
                   (emit (Stat "/tmp") Demo.world) _)
            {| DirStat.Name := "tmp"; DirStat.Path := "/tmp";
               DirStat.MTime := Demo.newYear2023 |} _ _).
  - reflexivity.
  - reflexivity.
  - unfold rfc3339. simpl. lia.
Defined.

(** ** Routing *)

(** C7: a request under [base/] whose path, after [base/] and without
    trailing slashes, does not start with [stats/] is answered 404 with
    the envelope of code 404, status "error" and message
    "not a valid API endpoint"; the answer is the same whatever the inner
    handler is, and no call is made on the file system (the world is as
    before). *)
Theorem unknown_endpoint_not_found
    (Redirect : ResponseWriter -> Request -> string -> Z -> ResponseWriter)
    (FileSystem : Type) (base : string) (root : FileSystem)
    (w : ResponseWriter) (r : Request) (σ : World) :
  strings.HasPrefix (URL_Path r) (strings.TrimRight base "/" ++ "/") = true ->
  strings.HasPrefix (endpoint_path base (URL_Path r)) "stats/" = false ->
  Sent w = None ->
  exists w' body,
    (forall inner : Handler,
       ServeAPI Redirect FileSystem base root inner w r σ =
         Ok (w', setPath r (endpoint_path base (URL_Path r)), σ)) /\
    StatusCode w' = 404 /\
    SentHeader w' = Header_Add (header w) ContentType applicationJSON /\
    Body w' = Body w ++ body /\
    object [("code", json.Int 404); ("status", json.String_ "error");
            ("message", json.String_ "not a valid API endpoint")] body.
Proof.
  intros Hp Hs Hfresh. eexists _, _. split; [|split; [|split; [|split]]].
  - intros inner. unfold ServeAPI.
    rewrite (HasPrefix_slash_neq _ _ Hp), Hp.
    rewrite (slice_from_prefix _ _ Hp), bind_Ok.
    unfold endpoint_path in Hs. cbn [URL_Path setPath]. rewrite Hs.
    rewrite WriteHeader_fresh by (simpl; first [assumption | unfold StatusNotFound; lia]).
    rewrite bind_Ok.
    remember (json.Marshal _) as m eqn:Hm. vm_compute in Hm. subst m.
    unfold Encode. erewrite Write_sent; [reflexivity | reflexivity | reflexivity].
  - reflexivity.
  - reflexivity.
  - reflexivity.
  - eexists. split; reflexivity.
Qed.

Lemma unknown_endpoint_not_found_witness :
  exists w' body,
    (forall inner : Handler,
       ServeAPI Demo.Redirect unit "/api/" tt inner NewResponseWriter
         (Demo.GET "/api/status/tmp/") Demo.world =
         Ok (w', setPath (Demo.GET "/api/status/tmp/") "status/tmp", Demo.world)) /\
    StatusCode w' = 404 /\
    SentHeader w' = Header_Add ∅ ContentType applicationJSON /\
    Body w' = Body NewResponseWriter ++ body /\
    object [("code", json.Int 404); ("status", json.String_ "error");
            ("message", json.String_ "not a valid API endpoint")] body.
Proof.
  apply (unknown_endpoint_not_found Demo.Redirect unit "/api/" tt NewResponseWriter
           (Demo.GET "/api/status/tmp/") Demo.world); reflexivity.
Defined.

(** C8: a request whose path is neither the base path (without its
    trailing slashes) nor under [base/] goes to the inner handler with the same response writer,
    the same request and the same world, and the outcome of the
    middleware is the outcome of the inner handler. *)
Theorem outside_base_pass_through
    (Redirect : ResponseWriter -> Request -> string -> Z -> ResponseWriter)
    (FileSystem : Type) (base : string) (root : FileSystem) (inner : Handler)
    (w : ResponseWriter) (r : Request) (σ : World) :
  String.eqb (URL_Path r) (strings.TrimRight base "/") = false ->
  strings.HasPrefix (URL_Path r) (strings.TrimRight base "/" ++ "/") = false ->
  ServeAPI Redirect FileSystem base root inner w r σ = inner w r σ.
Proof.
  intros Hne Hp. unfold ServeAPI. rewrite Hne, Hp.
  destruct (String.eqb (Header_Get _ _) _); reflexivity.
Qed.

Lemma outside_base_pass_through_witness :
  Demo.serve NewResponseWriter (Demo.GET "/apiary/index.html") Demo.world =
    Demo.teapot NewResponseWriter (Demo.GET "/apiary/index.html") Demo.world.
Proof.
  apply (outside_base_pass_through Demo.Redirect unit "/api" tt Demo.teapot);
    reflexivity.
Defined.

(** ** Repeated requests *)

(** The outcome of the resolver depends on the world through the file
    system only, and the file system is left as it was. *)
Lemma resolved_frame (ctx : Context) (req : any) (σ : World) :
  resolved (statsEndpoint ctx req σ) =
  resolved (statsEndpoint ctx req {| fs := fs σ; trace := [] |}) /\
  forall v err σ', statsEndpoint ctx req σ = Ok (v, err, σ') -> fs σ' = fs σ.
Proof.
  destruct σ as [f t]. unfold resolved, statsEndpoint, os_Stat, os_OpenFile.
  destruct req as [|path| |]; simpl; try (split; [reflexivity | discriminate]).
  destruct (os.stat f path) as [fi|e]; simpl.
  - destruct (os.IsRegular (os.Mode fi)); simpl.
    + destruct (os.open f path os.O_RDONLY 292) as [e|]; simpl.
      * destruct (String.eqb _ _); simpl;
          (split; [reflexivity | intros ? ? ? [= <- <- <-]; reflexivity]).
      * split; [reflexivity | intros ? ? ? [= <- <- <-]; reflexivity].
    + destruct (os.IsDir (os.Mode fi)); simpl;
        (split; [reflexivity | intros ? ? ? [= <- <- <-]; reflexivity]).
  - destruct (bool_decide _); simpl.
    + split; [reflexivity | intros ? ? ? [= <- <- <-]; reflexivity].
    + destruct (String.eqb _ _); simpl;
        (split; [reflexivity | intros ? ? ? [= <- <- <-]; reflexivity]).
Qed.

(** The response of the encoder depends on the world through the
    outcome of the endpoint only. *)
Lemma response_handleEndpoint (endpoint : Endpoint)
    (w : ResponseWriter) (r : Request) (σ1 σ2 : World) :
  resolved (endpoint context_Background (string_ (URL_Path r)) σ1) =
  resolved (endpoint context_Background (string_ (URL_Path r)) σ2) ->
  response (handleEndpoint endpoint w r σ1) = response (handleEndpoint endpoint w r σ2).
Proof.
  unfold handleEndpoint, resolved, response.
  destruct (endpoint _ _ σ1) as [[[v1 e1] τ1]|m1];
    destruct (endpoint _ _ σ2) as [[[v2 e2] τ2]|m2]; simpl;
    intros H; try discriminate H; [|congruence].
  injection H as -> -> Hfs.
  destruct e2 as [[perr|serr]|]; simpl.
  - destruct (WriteHeader _ _); simpl; [|reflexivity]. now rewrite Hfs.
  - destruct (WriteHeader _ _); simpl; [|reflexivity]. now rewrite Hfs.
  - destruct (marshalAny v2); simpl; now rewrite Hfs.
Qed.

(** C9: two stats requests with the same path, served in worlds with
    the same file system, get the same resolver outcome and the same
    response (status, headers and body), whatever was logged before and
    whatever the inner handlers are; and serving leaves the file system
    as it was. *)
Theorem stats_deterministic (σ1 σ2 : World) :
  fs σ1 = fs σ2 ->
  (forall ctx req,
     resolved (statsEndpoint ctx req σ1) = resolved (statsEndpoint ctx req σ2)) /\
  (forall ctx req v err σ',
     statsEndpoint ctx req σ1 = Ok (v, err, σ') -> fs σ' = fs σ1) /\
  (forall (Redirect : ResponseWriter -> Request -> string -> Z -> ResponseWriter)
          (FileSystem : Type) (base : string) (root : FileSystem)
          (inner1 inner2 : Handler) (w : ResponseWriter) (r : Request),
     strings.HasPrefix (URL_Path r) (strings.TrimRight base "/" ++ "/") = true ->
     strings.HasPrefix (endpoint_path base (URL_Path r)) "stats/" = true ->
     response (ServeAPI Redirect FileSystem base root inner1 w r σ1) =
     response (ServeAPI Redirect FileSystem base root inner2 w r σ2)).
Proof.
  intros Hfs.
  assert (Hres : forall ctx req,
    resolved (statsEndpoint ctx req σ1) = resolved (statsEndpoint ctx req σ2)).
  { intros ctx req.
    rewrite (proj1 (resolved_frame ctx req σ1)), (proj1 (resolved_frame ctx req σ2)).
    now rewrite Hfs. }
  split; [exact Hres|]. split.
  - intros ctx req v err σ' H. exact (proj2 (resolved_frame ctx req σ1) v err σ' H).
  - intros Redirect FileSystem base root inner1 inner2 w r Hp Hs.
    rewrite !ServeAPI_stats by assumption.
    apply response_handleEndpoint, Hres.
Qed.

Lemma stats_deterministic_witness :
  response (Demo.serve NewResponseWriter (Demo.GET "/api/stats//tmp/readme.txt")
              Demo.world) =
  response (ServeAPI Demo.Redirect unit "/api" tt (fun w r σ => Ok (w, r, σ))
              NewResponseWriter (Demo.GET "/api/stats//tmp/readme.txt")
              {| fs := Demo.disk; trace := [Stat "/tmp"; Printf "resp: %#v" nil] |}).
Proof.
  apply (stats_deterministic Demo.world
           {| fs := Demo.disk; trace := [Stat "/tmp"; Printf "resp: %#v" nil] |});
    reflexivity.
Defined.

(** ** Domain errors *)

(** The only [StatError]s the resolver makes: 404 and 403 for the path
    it was given. *)
Lemma statsEndpoint_StatError_inv
    (ctx : Context) (req : any) (σ σ' : World) (resp : any) (serr : StatError.t) :
  statsEndpoint ctx req σ = Ok (resp, Some (StatError_ serr), σ') ->
  exists path, req = string_ path /\
    (serr = NewStatError 404 path \/ serr = NewStatError 403 path).
Proof.
  unfold statsEndpoint, os_Stat, os_OpenFile.
  destruct req as [|path| |]; simpl; try discriminate.
  intros H. exists path. split; [reflexivity|]. revert H.
  destruct (os.stat (fs σ) path) as [fi|e]; simpl.
  - destruct (os.IsRegular (os.Mode fi)); simpl.
    + destruct (os.open (fs σ) path os.O_RDONLY 292) as [e|]; simpl.
      * destruct (String.eqb _ _); simpl; intros [= _ <- _]; now right.
      * discriminate.
    + destruct (os.IsDir (os.Mode fi)); simpl; discriminate.
  - destruct (bool_decide _); simpl.
    + intros [= _ <- _]. now left.
    + destruct (String.eqb _ _); simpl; intros [= _ <- _]; now right.
Qed.

(** C10: a [StatError] that the resolver returns has code 403 or 404;
    the response written for it has that status, 403 or 404, and the
    message "Forbidden" or "Not Found". *)
Theorem StatError_code_403_or_404
    (ctx : Context) (req : any) (σ σ' : World) (resp : any) (serr : StatError.t) :
  statsEndpoint ctx req σ = Ok (resp, Some (StatError_ serr), σ') ->
  (StatError.Code serr = 403 /\ StatError.Message serr = "Forbidden" \/
   StatError.Code serr = 404 /\ StatError.Message serr = "Not Found") /\
  forall (w : ResponseWriter) (r : Request),
    Sent w = None -> req = string_ (URL_Path r) ->
    exists w' body,
      handleEndpoint statsEndpoint w r σ = Ok (w', r, σ') /\
      (StatusCode w' = 403 \/ StatusCode w' = 404) /\
      responds w' (StatError.Code serr) (Body w ++ body) /\
      object [("status", json.String_ "error");
              ("code", json.Int (StatError.Code serr));
              ("path", json.String_ (StatError.Path serr));
              ("message", json.String_ (StatError.Message serr))] body.
Proof.
  intros H. destruct ctx.
  destruct (statsEndpoint_StatError_inv _ _ _ _ _ _ H) as [path [-> Hcode]].
  split.
  - destruct Hcode as [-> | ->]; [right | left]; split; reflexivity.
  - intros w r Hfresh [= Hpath]. subst path.
    eexists _, _. split; [|split; [|split; [apply reply_responds|]]].
    + eapply handleEndpoint_StatError;
        [ exact Hfresh | exact H
        | destruct Hcode as [-> | ->]; simpl; lia
        | destruct Hcode as [-> | ->]; reflexivity
        | reflexivity ].
    + destruct Hcode as [-> | ->]; [right | left]; reflexivity.
    + eexists. split; reflexivity.
Qed.

Lemma StatError_code_403_or_404_witness :
  StatError.Code (NewStatError 403 "/etc/shadow") = 403 /\
  StatError.Message (NewStatError 403 "/etc/shadow") = "Forbidden" \/
  StatError.Code (NewStatError 403 "/etc/shadow") = 404 /\
  StatError.Message (NewStatError 403 "/etc/shadow") = "Not Found".
Proof.
  apply (StatError_code_403_or_404 tt (string_ "/etc/shadow") Demo.world
           (emit (OpenFile "/etc/shadow" os.O_RDONLY 292)
              (emit (Stat "/etc/shadow") Demo.world))
           nil (NewStatError 403 "/etc/shadow")).
  reflexivity.
Defined.

(** * Beyond the claims *)

(** ** Strings: trimming, prefixes and last bytes *)

Lemma append_cons (x : ascii) (a b : string) : String x a ++ b = String x (a ++ b).
Proof. reflexivity. Qed.

Lemma append_assoc (a b c : string) : (a ++ b) ++ c = a ++ (b ++ c).
Proof.
  induction a as [|x a IH]; [reflexivity|]. now rewrite !append_cons, IH.
Qed.

Lemma append_empty_r (a : string) : a ++ EmptyString = a.
Proof. induction a as [|x a IH]; [reflexivity|]. now rewrite append_cons, IH. Qed.

(** What [TrimRight] returns does not end with a byte of the cutset. *)
Lemma TrimRight_last (s cutset : string) :
  match last_byte (strings.TrimRight s cutset) with
  | Some c => strings.IndexByte cutset c = false
  | None => True
  end.
Proof.
  induction s as [|c s IH]; simpl; [exact I|].
  destruct (strings.TrimRight s cutset) as [|d t] eqn:E.
  - destruct (strings.IndexByte cutset c) eqn:Ec; simpl; [exact I | exact Ec].
  - exact IH.
Qed.

(** A string that does not end with a byte of the cutset is left as it
    is. *)
Lemma TrimRight_fixed (s cutset : string) :
  match last_byte s with
  | Some c => strings.IndexByte cutset c = false
  | None => True
  end ->
  strings.TrimRight s cutset = s.
Proof.
  induction s as [|c s IH]; simpl; [reflexivity|].
  destruct s as [|d t].
  - simpl. now intros ->.
  - intros H. rewrite (IH H). reflexivity.
Qed.

Lemma TrimRight_idempotent (s cutset : string) :
  strings.TrimRight (strings.TrimRight s cutset) cutset = strings.TrimRight s cutset.
Proof. apply TrimRight_fixed, TrimRight_last. Qed.

(** Bytes of the cutset added at the end are trimmed away. *)
Lemma TrimRight_app_cut (s cutset : string) (c : ascii) :
  strings.IndexByte cutset c = true ->
  strings.TrimRight (s ++ String c EmptyString) cutset = strings.TrimRight s cutset.
Proof.
  intros Hc. induction s as [|d s IH].
  - simpl. now rewrite Hc.
  - rewrite append_cons. simpl. now rewrite IH.
Qed.

Lemma TrimRight_app_repeat (s : string) (k : nat) :
  strings.TrimRight (s ++ strings.repeat "/" k) "/" = strings.TrimRight s "/".
Proof.
  revert s. induction k as [|k IH]; intros s; simpl strings.repeat.
  - now rewrite append_empty_r.
  - replace (s ++ String "/" (strings.repeat "/" k))
      with ((s ++ String "/" EmptyString) ++ strings.repeat "/" k)
      by (now rewrite append_assoc).
    rewrite IH. now apply TrimRight_app_cut.
Qed.

Lemma HasPrefix_app (p x : string) : strings.HasPrefix (p ++ x) p = true.
Proof.
  induction p as [|c p IH]; [destruct x; reflexivity|].
  rewrite append_cons. simpl. now rewrite Ascii.eqb_refl.
Qed.

Lemma drop_app (p x : string) : strings.drop (String.length p) (p ++ x) = x.
Proof. induction p as [|c p IH]; [reflexivity | exact IH]. Qed.

(** A string with a prefix is the prefix and what [drop] leaves. *)
Lemma HasPrefix_split (s p : string) :
  strings.HasPrefix s p = true -> s = p ++ strings.drop (String.length p) s.
Proof.
  revert s. induction p as [|c p IH]; intros [|d s]; simpl; try reflexivity;
    try discriminate.
  destruct (Ascii.eqb_spec d c) as [->|]; [|discriminate].
  intros H. rewrite append_cons. now rewrite <- (IH s H).
Qed.

Lemma last_byte_app (a b : string) :
  b <> EmptyString -> last_byte (a ++ b) = last_byte b.
Proof.
  intros Hb. induction a as [|c a IH]; [reflexivity|].
  rewrite append_cons. simpl.
  destruct (a ++ b) as [|d t] eqn:E; [|exact IH].
  destruct a; [change (b = EmptyString) in E; congruence | discriminate E].
Qed.

Lemma last_byte_app_byte (a : string) (c : ascii) :
  last_byte (a ++ String c EmptyString) = Some c.
Proof. rewrite last_byte_app; [reflexivity | discriminate]. Qed.

(** ** The router beyond the claims *)

Section RouterMore.

Variable Redirect : ResponseWriter -> Request -> string -> Z -> ResponseWriter.
Variable FileSystem : Type.
Variables (base : string) (root : FileSystem).

Let path : string := strings.TrimRight base "/".

(** A path under [base/] that names no endpoint: the answer is written
    by the router alone. *)
Lemma ServeAPI_not_endpoint (inner : Handler) w r σ :
  strings.HasPrefix (URL_Path r) (path ++ "/") = true ->
  strings.HasPrefix (endpoint_path base (URL_Path r)) "stats/" = false ->
  Sent w = None ->
  ServeAPI Redirect FileSystem base root inner w r σ =
    Ok (not_valid_endpoint w, setPath r (endpoint_path base (URL_Path r)), σ).
Proof.
  intros Hp Hs Hfresh. unfold ServeAPI. fold path.
  rewrite (HasPrefix_slash_neq _ _ Hp), Hp.
  rewrite (slice_from_prefix _ _ Hp), bind_Ok.
  unfold endpoint_path in Hs. fold path in Hs. cbn [URL_Path setPath]. rewrite Hs.
  rewrite WriteHeader_fresh by (simpl; first [assumption | unfold StatusNotFound; lia]).
  rewrite bind_Ok.
  remember (json.Marshal _) as m eqn:Hm. vm_compute in Hm. subst m.
  unfold Encode. erewrite Write_sent; [reflexivity | reflexivity | reflexivity].
Qed.

Lemma endpoint_path_app (rest : string) :
  endpoint_path base ((path ++ "/") ++ rest) = strings.TrimRight rest "/".
Proof. unfold endpoint_path. fold path. now rewrite drop_app. Qed.

End RouterMore.

(** X1: a request for the base path itself (without its trailing
    slashes) is handed to [http.Redirect] with the base path plus one
    slash and status 301, whatever the inner handler is and with no call
    on the file system; and the location it is sent to, requested from
    the same middleware, is answered 404 "not a valid API endpoint". *)
Theorem base_path_redirects_to_unknown_endpoint
    (Redirect : ResponseWriter -> Request -> string -> Z -> ResponseWriter)
    (FileSystem : Type) (base : string) (root : FileSystem)
    (w : ResponseWriter) (r : Request) (σ : World) :
  String.eqb (URL_Path r) (strings.TrimRight base "/") = true ->
  Sent w = None ->
  let location := strings.TrimRight base "/" ++ "/" in
  (forall inner : Handler,
     ServeAPI Redirect FileSystem base root inner w r σ =
       Ok (Redirect w r location StatusMovedPermanently, r, σ)) /\
  (forall inner : Handler,
     ServeAPI Redirect FileSystem base root inner w (setPath r location) σ =
       Ok (not_valid_endpoint w, setPath r EmptyString, σ)).
Proof.
  intros Heq Hfresh location. split; intros inner.
  - unfold ServeAPI. now rewrite Heq.
  - assert (Hp : strings.HasPrefix (URL_Path (setPath r location))
                   (strings.TrimRight base "/" ++ "/") = true).
    { simpl. unfold location.
      rewrite <- (append_empty_r (strings.TrimRight base "/" ++ "/")) at 1.
      apply HasPrefix_app. }
    assert (He : endpoint_path base (URL_Path (setPath r location)) = EmptyString).
    { simpl. unfold location.
      rewrite <- (append_empty_r (strings.TrimRight base "/" ++ "/")).
      now rewrite endpoint_path_app. }
    rewrite ServeAPI_not_endpoint; [ | exact Hp | now rewrite He | exact Hfresh ].
    now rewrite He.
Qed.

Lemma base_path_redirects_to_unknown_endpoint_witness :
  ServeAPI Demo.Redirect unit "/api//" tt Demo.teapot NewResponseWriter
    (Demo.GET "/api") Demo.world =
  Ok (Demo.Redirect NewResponseWriter (Demo.GET "/api") "/api/" 301,
      Demo.GET "/api", Demo.world).
Proof.
  exact (proj1 (base_path_redirects_to_unknown_endpoint Demo.Redirect unit "/api//" tt
                  NewResponseWriter (Demo.GET "/api") Demo.world eq_refl eq_refl)
           Demo.teapot).
Defined.

(** X2: trailing slashes of the configured base path make no
    difference: the middleware for [base] followed by any number of
    slashes is the middleware for [base]. *)
Theorem base_trailing_slashes_ignored
    (Redirect : ResponseWriter -> Request -> string -> Z -> ResponseWriter)
    (FileSystem : Type) (base : string) (root : FileSystem) (k : nat) :
  ServeAPI Redirect FileSystem (base ++ strings.repeat "/" k) root =
  ServeAPI Redirect FileSystem base root.
Proof. unfold ServeAPI. now rewrite TrimRight_app_repeat. Qed.

(** A string that [TrimRight] leaves as it is does not end with a
    slash. *)
Lemma TrimRight_fixed_last (t : string) :
  strings.TrimRight t "/" = t -> last_byte t <> Some "/"%char.
Proof.
  intros H Hl. pose proof (TrimRight_last t "/") as Ht.
  rewrite H, Hl in Ht. discriminate Ht.
Qed.

Lemma not_slash_fixed (t : string) :
  last_byte t <> Some "/"%char -> strings.TrimRight t "/" = t.
Proof.
  intros H. apply TrimRight_fixed. destruct (last_byte t) as [c|]; [|exact I].
  simpl. destruct (Ascii.eqb_spec c "/") as [->|]; [congruence | reflexivity].
Qed.

(** What follows [stats/] in a trimmed path is not empty and does not
    end with a slash. *)
Lemma target_shape (x : string) :
  strings.HasPrefix (strings.TrimRight x "/") "stats/" = true ->
  let target := strings.drop 6 (strings.TrimRight x "/") in
  String.eqb target EmptyString = false /\ strings.TrimRight target "/" = target.
Proof.
  intros Hs target.
  pose proof (HasPrefix_split _ _ Hs) as Hsplit.
  change (String.length "stats/") with 6%nat in Hsplit. fold target in Hsplit.
  assert (Hl : last_byte (strings.TrimRight x "/") <> Some "/"%char)
    by (apply TrimRight_fixed_last, TrimRight_idempotent).
  rewrite Hsplit in Hl.
  assert (Hne : target <> EmptyString).
  { intros He. rewrite He in Hl. apply Hl. reflexivity. }
  split; [now apply String.eqb_neq|].
  apply not_slash_fixed. now rewrite last_byte_app in Hl.
Qed.

(** X3: the path the router hands to the stats handler is what follows
    [base/stats/] without trailing slashes; it is never empty and never
    ends with a slash. *)
Theorem stats_target_not_empty_no_trailing_slash
    (Redirect : ResponseWriter -> Request -> string -> Z -> ResponseWriter)
    (FileSystem : Type) (base : string) (root : FileSystem) (inner : Handler)
    (w : ResponseWriter) (r : Request) (σ : World) :
  strings.HasPrefix (URL_Path r) (strings.TrimRight base "/" ++ "/") = true ->
  strings.HasPrefix (endpoint_path base (URL_Path r)) "stats/" = true ->
  let target := strings.drop 6 (endpoint_path base (URL_Path r)) in
  ServeAPI Redirect FileSystem base root inner w r σ =
    handleEndpoint statsEndpoint w (setPath r target) σ /\
  String.eqb target EmptyString = false /\
  strings.TrimRight target "/" = target.
Proof.
  intros Hp Hs target. split; [now apply ServeAPI_stats|].
  exact (target_shape _ Hs).
Qed.

Lemma stats_target_not_empty_no_trailing_slash_witness :
  Demo.serve NewResponseWriter (Demo.GET "/api/stats//tmp//") Demo.world =
    handleEndpoint statsEndpoint NewResponseWriter
      (setPath (Demo.GET "/api/stats//tmp//") "/tmp") Demo.world.
Proof.
  exact (proj1 (stats_target_not_empty_no_trailing_slash Demo.Redirect unit "/api" tt
                  Demo.teapot NewResponseWriter (Demo.GET "/api/stats//tmp//")
                  Demo.world eq_refl eq_refl)).
Defined.



(** X5: the request [base/stats/target], with any number of slashes
    after it, runs the stats handler on [target], when [target] is not
    empty and does not end with a slash. *)
Theorem stats_url_resolves_target
    (Redirect : ResponseWriter -> Request -> string -> Z -> ResponseWriter)
    (FileSystem : Type) (base : string) (root : FileSystem) (inner : Handler)
    (w : ResponseWriter) (r : Request) (σ : World) (target : string) (k : nat) :
  String.eqb target EmptyString = false ->
  strings.TrimRight target "/" = target ->
  URL_Path r =
    (strings.TrimRight base "/" ++ "/") ++ ("stats/" ++ target) ++ strings.repeat "/" k ->
  ServeAPI Redirect FileSystem base root inner w r σ =
    handleEndpoint statsEndpoint w (setPath r target) σ.
Proof.
  intros Hne Hfix Hurl. apply String.eqb_neq in Hne.
  assert (He : endpoint_path base (URL_Path r) = "stats/" ++ target).
  { rewrite Hurl, endpoint_path_app, TrimRight_app_repeat.
    apply not_slash_fixed. rewrite last_byte_app by assumption.
    now apply TrimRight_fixed_last. }
  rewrite ServeAPI_stats;
    [ | rewrite Hurl; apply HasPrefix_app | rewrite He; apply (HasPrefix_app "stats/") ].
  rewrite He. reflexivity.
Qed.

Lemma stats_url_resolves_target_witness :
  Demo.serve NewResponseWriter (Demo.GET "/api/stats//etc/shadow///") Demo.world =
    handleEndpoint statsEndpoint NewResponseWriter
      (setPath (Demo.GET "/api/stats//etc/shadow///") "/etc/shadow") Demo.world.
Proof.
  apply (stats_url_resolves_target Demo.Redirect unit "/api" tt Demo.teapot
           NewResponseWriter (Demo.GET "/api/stats//etc/shadow///") Demo.world
           "/etc/shadow" 3); reflexivity.
Defined.

(** ** The resolver beyond the claims *)

Lemma calls_refl (σ : World) : calls σ σ [].
Proof. unfold calls. now rewrite app_nil_r. Qed.

Lemma calls_emit (σ σ' : World) (evs : list Event) (ev : Event) :
  calls σ σ' evs -> calls σ (emit ev σ') (evs ++ [ev])%list.
Proof. unfold calls. simpl. intros ->. now rewrite app_assoc. Qed.

(** A directory is not a regular file: [ModeDir] is one of the bits of
    [ModeType]. *)
Lemma IsDir_not_IsRegular (m : os.FileMode) :
  os.IsDir m = true -> os.IsRegular m = false.
Proof.
  unfold os.IsDir, os.IsRegular. intros Hd.
  destruct (Z.eqb_spec (Z.land m os.ModeType) 0) as [Hz|]; [|reflexivity].
  assert (Hm : Z.land m os.ModeDir = 0).
  { replace os.ModeDir with (Z.land os.ModeType os.ModeDir) by reflexivity.
    now rewrite Z.land_assoc, Hz. }
  rewrite Hm in Hd. discriminate Hd.
Qed.

(** On a path the resolver returns, with the file system as it was. *)
Lemma statsEndpoint_returns (ctx : Context) (path : string) (σ : World) :
  exists v err σ',
    statsEndpoint ctx (string_ path) σ = Ok (v, err, σ') /\ fs σ' = fs σ.
Proof.
  unfold statsEndpoint, os_Stat, os_OpenFile, File_Close. simpl.
  destruct (os.stat (fs σ) path) as [fi|e]; simpl.
  - destruct (os.IsRegular (os.Mode fi)); simpl.
    + destruct (os.open (fs σ) path os.O_RDONLY 292) as [e|]; simpl;
        [destruct (String.eqb _ _); simpl|]; eexists _, _, _; split; reflexivity.
    + destruct (os.IsDir (os.Mode fi)); simpl; eexists _, _, _; split; reflexivity.
  - destruct (bool_decide _); simpl; [|destruct (String.eqb _ _); simpl];
      eexists _, _, _; split; reflexivity.
Qed.


(** X7: when stat is denied ([EACCES], "permission denied"), the
    resolver gives [StatError{403, path}] after the one stat, nothing is
    opened, and the response is 403 with the envelope whose message is
    "Forbidden". *)
Theorem stat_denied_forbidden (path : string) (σ : World)
    (w : ResponseWriter) (r : Request) :
  os.stat (fs σ) path = inr syscall.EACCES ->
  Sent w = None -> URL_Path r = path ->
  exists w' body σ',
    handleEndpoint statsEndpoint w r σ = Ok (w', r, σ') /\
    calls σ σ' [Stat path] /\
    responds w' 403 (Body w ++ body) /\
    object [("status", json.String_ "error"); ("code", json.Int 403);
            ("path", json.String_ path); ("message", json.String_ "Forbidden")]
           body.
Proof.
  intros Hstat Hfresh Hpath. eexists _, _, _.
  split; [|split; [|split; [apply reply_responds|]]].
  - eapply (handleEndpoint_StatError _ _ _ _ _ Hfresh _ (NewStatError 403 path));
      [ rewrite Hpath; exact (statsEndpoint_stat_denied _ path σ Hstat)
      | simpl; lia | reflexivity | reflexivity ].
  - apply (calls_emit _ _ []), calls_refl.
  - eexists. split; reflexivity.
Qed.

Lemma stat_denied_forbidden_witness :
  exists w' body σ',
    handleEndpoint statsEndpoint NewResponseWriter (Demo.GET "/root/.profile")
      Demo.world = Ok (w', Demo.GET "/root/.profile", σ') /\
    calls Demo.world σ' [Stat "/root/.profile"] /\
    responds w' 403 (Body NewResponseWriter ++ body) /\
    object [("status", json.String_ "error"); ("code", json.Int 403);
            ("path", json.String_ "/root/.profile");
            ("message", json.String_ "Forbidden")]
           body.
Proof.
  apply (stat_denied_forbidden "/root/.profile" Demo.world NewResponseWriter
           (Demo.GET "/root/.profile")); reflexivity.
Defined.

(** X8: when the open of a regular file fails with an error whose text
    is not "permission denied" (the file is gone since the stat, too
    many files are open, ...), the resolver returns that error as it is,
    closes nothing, and the response is 500 with the text of the open
    error as message; nothing is logged. *)
Theorem open_failure_unclassified (path : string) (σ : World) (fi : os.FileInfo)
    (e : syscall.Errno) (w : ResponseWriter) (r : Request) :
  os.stat (fs σ) path = inl fi ->
  os.IsRegular (os.Mode fi) = true ->
  os.open (fs σ) path os.O_RDONLY 292 = Some e ->
  String.eqb (syscall.Error e) os.ErrPermission_Error = false ->
  Sent w = None -> URL_Path r = path ->
  exists w' body σ',
    handleEndpoint statsEndpoint w r σ = Ok (w', r, σ') /\
    calls σ σ' [Stat path; OpenFile path os.O_RDONLY 292] /\
    responds w' 500 (Body w ++ body) /\
    object [("code", json.Int 500); ("status", json.String_ "error");
            ("message", json.String_ ("open " ++ path ++ ": " ++ syscall.Error e))]
           body.
Proof.
  intros Hstat Hreg Hopen Htext Hfresh Hpath.
  assert (Hne : e <> syscall.EACCES) by (intros ->; discriminate Htext).
  eexists _, _, _. split; [|split; [|split; [apply reply_responds|]]].
  - eapply handleEndpoint_PathError;
      [ exact Hfresh
      | rewrite Hpath; exact (statsEndpoint_open_other _ path σ fi e Hstat Hreg Hopen Hne)
      | reflexivity ].
  - apply (calls_emit _ _ [Stat path]), (calls_emit _ _ []), calls_refl.
  - eexists. split; reflexivity.
Qed.

Lemma open_failure_unclassified_witness :
  exists w' body σ',
    handleEndpoint statsEndpoint NewResponseWriter (Demo.GET "/srv/guarded")
      Demo.world = Ok (w', Demo.GET "/srv/guarded", σ') /\
    calls Demo.world σ' [Stat "/srv/guarded"; OpenFile "/srv/guarded" os.O_RDONLY 292] /\
    responds w' 500 (Body NewResponseWriter ++ body) /\
    object [("code", json.Int 500); ("status", json.String_ "error");
            ("message",
             json.String_ ("open " ++ "/srv/guarded" ++ ": " ++
                           syscall.Error syscall.EPERM))]
           body.
Proof.
  apply (open_failure_unclassified "/srv/guarded" Demo.world Demo.guarded syscall.EPERM
           NewResponseWriter (Demo.GET "/srv/guarded")); reflexivity.
Defined.

(** X9: for a regular file that can be opened, the descriptor takes its
    name, size and modification time from the stat and its path from the
    request; the file is opened read-only and closed, the descriptor is
    logged, and (the time having an RFC 3339 form) the response is 200
    with the file object. *)
Theorem file_descriptor_from_stat (path : string) (σ : World) (fi : os.FileInfo)
    (w : ResponseWriter) (r : Request) :
  os.stat (fs σ) path = inl fi ->
  os.IsRegular (os.Mode fi) = true ->
  os.open (fs σ) path os.O_RDONLY 292 = None ->
  rfc3339 (os.ModTime fi) ->
  Sent w = None -> URL_Path r = path ->
  let file := {| FileStat.Name := os.Name fi; FileStat.Path := path;
                 FileStat.Size := os.Size fi; FileStat.MTime := os.ModTime fi |} in
  exists w' body σ',
    handleEndpoint statsEndpoint w r σ = Ok (w', r, σ') /\
    calls σ σ' [Stat path; OpenFile path os.O_RDONLY 292;
                Close {| os.file_name := path |};
                Printf "resp: %#v" (FileStat_ file)] /\
    responds w' 200 (Body w ++ body) /\
    object [("type", json.String_ "file"); ("name", json.String_ (os.Name fi));
            ("path", json.String_ path); ("size", json.Int (os.Size fi));
            ("mtime", json.Time (os.ModTime fi))] body.
Proof.
  intros Hstat Hreg Hopen Ht Hfresh Hpath file.
  assert (Hm : exists b, FileStat.MarshalJSON file = Some b).
  { unfold FileStat.MarshalJSON, json.Marshal. simpl.
    rewrite (appendStrictRFC3339_Some _ Ht). simpl. eexists. reflexivity. }
  destruct Hm as [b Hm].
  eexists _, _, _. split; [|split; [|split; [apply reply_responds|]]].
  - eapply handleEndpoint_value;
      [ exact Hfresh
      | rewrite Hpath; exact (statsEndpoint_file _ path σ fi Hstat Hreg Hopen)
      | exact Hm ].
  - apply (calls_emit _ _ [Stat path; OpenFile path os.O_RDONLY 292;
                           Close {| os.file_name := path |}]),
      (calls_emit _ _ [Stat path; OpenFile path os.O_RDONLY 292]),
      (calls_emit _ _ [Stat path]), (calls_emit _ _ []), calls_refl.
  - exists b. split; [exact Hm | reflexivity].
Qed.

Lemma file_descriptor_from_stat_witness :
  exists w' body σ',
    handleEndpoint statsEndpoint NewResponseWriter (Demo.GET "/tmp/readme.txt")
      Demo.world = Ok (w', Demo.GET "/tmp/readme.txt", σ') /\
    calls Demo.world σ'
      [Stat "/tmp/readme.txt"; OpenFile "/tmp/readme.txt" os.O_RDONLY 292;
       Close {| os.file_name := "/tmp/readme.txt" |};
       Printf "resp: %#v"
         (FileStat_ {| FileStat.Name := "readme.txt"; FileStat.Path := "/tmp/readme.txt";
                       FileStat.Size := 1024; FileStat.MTime := Demo.newYear2023 |})] /\
    responds w' 200 (Body NewResponseWriter ++ body) /\
    object [("type", json.String_ "file"); ("name", json.String_ "readme.txt");
            ("path", json.String_ "/tmp/readme.txt"); ("size", json.Int 1024);
            ("mtime", json.Time Demo.newYear2023)] body.
Proof.
  apply (file_descriptor_from_stat "/tmp/readme.txt" Demo.world Demo.readme
           NewResponseWriter (Demo.GET "/tmp/readme.txt"));
    first [reflexivity | unfold rfc3339; simpl; lia].
Defined.

(** X10: a directory is reported from the stat alone: no open is made,
    so whether it could be opened plays no part; the descriptor has the
    name and modification time of the stat, it is logged, and (the time
    having an RFC 3339 form) the response is 200 with the directory
    object. *)
Theorem directory_not_probed (path : string) (σ : World) (fi : os.FileInfo)
    (w : ResponseWriter) (r : Request) :
  os.stat (fs σ) path = inl fi ->
  os.IsDir (os.Mode fi) = true ->
  rfc3339 (os.ModTime fi) ->
  Sent w = None -> URL_Path r = path ->
  let dir := {| DirStat.Name := os.Name fi; DirStat.Path := path;
                DirStat.MTime := os.ModTime fi |} in
  exists w' body σ',
    handleEndpoint statsEndpoint w r σ = Ok (w', r, σ') /\
    calls σ σ' [Stat path; Printf "resp: %#v" (DirStat_ dir)] /\
    responds w' 200 (Body w ++ body) /\
    object [("type", json.String_ "directory"); ("name", json.String_ (os.Name fi));
            ("path", json.String_ path); ("mtime", json.Time (os.ModTime fi))] body.
Proof.
  intros Hstat Hdir Ht Hfresh Hpath dir.
  pose proof (IsDir_not_IsRegular _ Hdir) as Hreg.
  assert (Hm : exists b, DirStat.MarshalJSON dir = Some b).
  { unfold DirStat.MarshalJSON, json.Marshal. simpl.
    rewrite (appendStrictRFC3339_Some _ Ht). simpl. eexists. reflexivity. }
  destruct Hm as [b Hm].
  eexists _, _, _. split; [|split; [|split; [apply reply_responds|]]].
  - eapply handleEndpoint_value;
      [ exact Hfresh
      | rewrite Hpath; exact (statsEndpoint_dir _ path σ fi Hstat Hreg Hdir)
      | exact Hm ].
  - apply (calls_emit _ _ [Stat path]), (calls_emit _ _ []), calls_refl.
  - exists b. split; [exact Hm | reflexivity].
Qed.

Lemma directory_not_probed_witness :
  exists w' body σ',
    handleEndpoint statsEndpoint NewResponseWriter (Demo.GET "/tmp") Demo.world
      = Ok (w', Demo.GET "/tmp", σ') /\
    calls Demo.world σ'
      [Stat "/tmp";
       Printf "resp: %#v"
         (DirStat_ {| DirStat.Name := "tmp"; DirStat.Path := "/tmp";
                      DirStat.MTime := Demo.newYear2023 |})] /\
    responds w' 200 (Body NewResponseWriter ++ body) /\
    object [("type", json.String_ "directory"); ("name", json.String_ "tmp");
            ("path", json.String_ "/tmp"); ("mtime", json.Time Demo.newYear2023)] body.
Proof.
  apply (directory_not_probed "/tmp" Demo.world Demo.tmp NewResponseWriter
           (Demo.GET "/tmp")); first [reflexivity | unfold rfc3339; simpl; lia].
Defined.

(** ** The encoder and the middleware as wholes *)

Lemma WriteHeader_valid (w : ResponseWriter) (code : Z) :
  100 <= code <= 999 -> exists w', WriteHeader w code = Ok w'.
Proof.
  intros Hc. unfold WriteHeader. destruct (Sent w); [eauto|].
  replace (code <? 100) with false by (symmetry; apply Z.ltb_ge; lia).
  replace (999 <? code) with false by (symmetry; apply Z.ltb_ge; lia).
  simpl. destruct (_ && _); eauto.
Qed.



(** X12: a [StatError] whose code is not a three-digit status (below
    100 or above 999) makes the encoder panic in [WriteHeader], before
    anything is written. *)
Theorem encoder_invalid_code_panics (endpoint : Endpoint) (w : ResponseWriter)
    (r : Request) (σ σ' : World) (resp : any) (serr : StatError.t) :
  Sent w = None ->
  endpoint context_Background (string_ (URL_Path r)) σ =
    Ok (resp, Some (StatError_ serr), σ') ->
  (StatError.Code serr <? 100) || (999 <? StatError.Code serr) = true ->
  handleEndpoint endpoint w r σ = Panic "invalid WriteHeader code".
Proof.
  intros Hfresh He Hc. unfold handleEndpoint. rewrite He, bind_Ok.
  unfold WriteHeader. simpl. now rewrite Hfresh, Hc.
Qed.

Lemma encoder_invalid_code_panics_witness :
  handleEndpoint (fun _ _ σ => Ok (nil, Some (StatError_ (NewStatError 0 "x")), σ))
    NewResponseWriter (Demo.GET "x") Demo.world = Panic "invalid WriteHeader code".
Proof.
  apply (encoder_invalid_code_panics _ NewResponseWriter (Demo.GET "x") Demo.world
           Demo.world nil (NewStatError 0 "x")); reflexivity.
Defined.

(** The stats handler returns on every request and every world, on a
    response started or not, and leaves the file system as it was. *)
Lemma stats_handler_returns (w : ResponseWriter) (r : Request) (σ : World) :
  exists w' σ', handleEndpoint statsEndpoint w r σ = Ok (w', r, σ') /\ fs σ' = fs σ.
Proof.
  destruct (statsEndpoint_returns context_Background (URL_Path r) σ)
    as (v & err & σ' & He & Hfs).
  unfold handleEndpoint. rewrite He, bind_Ok.
  destruct err as [[perr|serr]|].
  - destruct (WriteHeader_valid
                (setHeader w (Header_Set (header w) "Content-Type" "application/json"))
                StatusInternalServerError) as [w1 Hw];
      [unfold StatusInternalServerError; lia|].
    rewrite Hw, bind_Ok. simpl. eauto.
  - destruct (statsEndpoint_StatError_inv _ _ _ _ _ _ He) as (p & _ & Hcode).
    destruct (WriteHeader_valid
                (setHeader w (Header_Set (header w) "Content-Type" "application/json"))
                (StatError.Code serr)) as [w1 Hw];
      [destruct Hcode as [-> | ->]; simpl; lia|].
    rewrite Hw, bind_Ok. simpl. eauto.
  - destruct (marshalAny v); simpl; eauto.
Qed.

(** X13: the middleware does not panic of its own: on every request it
    either is the inner handler (same writer, request and world), or
    returns, with the file system as it was; its two slices are within
    bounds and the status codes it writes are valid. *)
Theorem middleware_panics_only_in_inner
    (Redirect : ResponseWriter -> Request -> string -> Z -> ResponseWriter)
    (FileSystem : Type) (base : string) (root : FileSystem) (inner : Handler)
    (w : ResponseWriter) (r : Request) (σ : World) :
  ServeAPI Redirect FileSystem base root inner w r σ = inner w r σ \/
  exists w' r' σ',
    ServeAPI Redirect FileSystem base root inner w r σ = Ok (w', r', σ') /\
    fs σ' = fs σ.
Proof.
  destruct (String.eqb (URL_Path r) (strings.TrimRight base "/")) eqn:Heq.
  - right. unfold ServeAPI. rewrite Heq. eexists _, _, _. split; reflexivity.
  - destruct (strings.HasPrefix (URL_Path r) (strings.TrimRight base "/" ++ "/")) eqn:Hp.
    + right.
      destruct (strings.HasPrefix (endpoint_path base (URL_Path r)) "stats/") eqn:Hs.
      * rewrite ServeAPI_stats by assumption.
        destruct (stats_handler_returns w
                    (setPath r (strings.drop 6 (endpoint_path base (URL_Path r)))) σ)
          as (w' & σ' & H & Hfs).
        eexists _, _, _. split; [exact H | exact Hfs].
      * unfold ServeAPI. rewrite Heq, Hp.
        rewrite (slice_from_prefix _ _ Hp), bind_Ok.
        unfold endpoint_path in Hs. cbn [URL_Path setPath]. rewrite Hs.
        destruct (WriteHeader_valid
                    (setHeader w (Header_Add (header w) "Content-Type" "application/json"))
                    StatusNotFound) as [w1 Hw]; [unfold StatusNotFound; lia|].
        rewrite Hw, bind_Ok.
        remember (json.Marshal _) as m eqn:Hm. vm_compute in Hm. subst m.
        simpl. eexists _, _, _. split; reflexivity.
    + left. unfold ServeAPI. rewrite Heq, Hp.
      destruct (String.eqb (Header_Get _ _) _); reflexivity.
Qed.

(** ** What is marshalled, and when *)

(** [time.appendStrictRFC3339] fails exactly on the times without an
    RFC 3339 form. *)
Lemma appendStrictRFC3339_None (t : time.Time) :
  ~ rfc3339 t -> time.appendStrictRFC3339 t = None.
Proof.
  intros Hn. unfold time.appendStrictRFC3339.
  destruct (Z.ltb_spec (time.Year t) 0) as [|Hy0]; [reflexivity|].
  destruct (Z.ltb_spec 9999 (time.Year t)) as [|Hy1]; [reflexivity|]. simpl.
  destruct (Z.leb_spec 24 (Z.abs (time.Offset t ÷ 60) ÷ 60)) as [|Hz]; [reflexivity|].
  exfalso. apply Hn. unfold rfc3339. split; [lia|].
  revert Hz. generalize (time.Offset t). intros o Hz.
  Z.to_euclidean_division_equations. lia.
Qed.

Lemma marshalTime_spec (t : time.Time) :
  match json.marshalValue (json.Time t) with
  | Some _ => rfc3339 t
  | None => ~ rfc3339 t
  end.
Proof.
  simpl. destruct (time.appendStrictRFC3339 t) as [b|] eqn:E; simpl.
  - destruct (Z.le_gt_cases 0 (time.Year t));
      destruct (Z.le_gt_cases (time.Year t) 9999);
      destruct (Z.lt_ge_cases (-86400) (time.Offset t));
      destruct (Z.lt_ge_cases (time.Offset t) 86400);
      try (unfold rfc3339; lia);
      rewrite appendStrictRFC3339_None in E by (unfold rfc3339; lia); discriminate E.
  - intros Ht. now rewrite (appendStrictRFC3339_Some _ Ht) in E.
Qed.

(** X14: [StatError.MarshalJSON] never fails; [FileStat.MarshalJSON] and
    [DirStat.MarshalJSON] fail exactly when the modification time has no
    RFC 3339 form: a year outside 0..9999, or a zone offset of 24 hours
    or more. *)
Theorem MarshalJSON_fails_exactly :
  (forall err : StatError.t, exists b, StatError.MarshalJSON err = Some b) /\
  (forall f : FileStat.t,
     FileStat.MarshalJSON f = None <-> ~ rfc3339 (FileStat.MTime f)) /\
  (forall d : DirStat.t,
     DirStat.MarshalJSON d = None <-> ~ rfc3339 (DirStat.MTime d)).
Proof.
  split; [|split].
  - intros err. eexists. reflexivity.
  - intros f. pose proof (marshalTime_spec (FileStat.MTime f)) as H.
    unfold FileStat.MarshalJSON, json.Marshal. simpl in *.
    destruct (time.appendStrictRFC3339 (FileStat.MTime f)); simpl in *.
    + split; [discriminate | intros Hn; now destruct Hn].
    + split; [intros _; exact H | reflexivity].
  - intros d. pose proof (marshalTime_spec (DirStat.MTime d)) as H.
    unfold DirStat.MarshalJSON, json.Marshal. simpl in *.
    destruct (time.appendStrictRFC3339 (DirStat.MTime d)); simpl in *.
    + split; [discriminate | intros Hn; now destruct Hn].
    + split; [intros _; exact H | reflexivity].
Qed.

(** X15: [StatError.Message] is never empty: the text of the status, or
    "unknown error" for a code [http.StatusText] does not know. *)
Theorem StatError_Message_not_empty (err : StatError.t) :
  String.eqb (StatError.Message err) EmptyString = false /\
  (StatError.Message err = StatusText (StatError.Code err) \/
   StatError.Message err = "unknown error" /\
   StatusText (StatError.Code err) = EmptyString).
Proof.
  unfold StatError.Message.
  destruct (String.eqb (StatusText (StatError.Code err)) EmptyString) eqn:E.
  - split; [reflexivity|]. right. split; [reflexivity|]. now apply String.eqb_eq.
  - split; [exact E | now left].
Qed.

(** ** The JSON that is written *)

Lemma printable_app (a b : string) :
  printable (a ++ b) = printable a && printable b.
Proof.
  induction a as [|c a IH]; [reflexivity|].
  rewrite append_cons. simpl. now rewrite IH, andb_assoc.
Qed.

Lemma validChars_high_cons (c : ascii) (X : string) :
  (128 <=? utf8.byte c) = true -> validChars (String c X) = validChars X.
Proof.
  intros H. apply Z.leb_le in H. simpl.
  destruct (Z.eqb_spec (utf8.byte c) 92); [lia|].
  destruct (Z.leb_spec 32 (utf8.byte c)); [|lia].
  destruct (Z.eqb_spec (utf8.byte c) 34); [lia|]. reflexivity.
Qed.

Lemma validChars_ascii (c : ascii) (X : string) :
  (utf8.byte c <? 128) = true ->
  validChars ((if json.htmlSafe (utf8.byte c) then String c EmptyString
               else json.escapeByte c) ++ X) = validChars X.
Proof.
  destruct c as [[] [] [] [] [] [] [] []]; intros H; try discriminate H; reflexivity.
Qed.

Lemma printable_ascii (c : ascii) :
  (utf8.byte c <? 128) = true ->
  printable (if json.htmlSafe (utf8.byte c) then String c EmptyString
             else json.escapeByte c) = true.
Proof.
  destruct c as [[] [] [] [] [] [] [] []]; intros H; try discriminate H; reflexivity.
Qed.

Lemma first_high (c : ascii) (sz : nat) (lo hi : Z) :
  utf8.first c = Some (sz, lo, hi) ->
  128 <= utf8.byte c /\ 128 <= lo /\ (sz = 2 \/ sz = 3 \/ sz = 4)%nat.
Proof.
  unfold utf8.first.
  repeat match goal with
         | |- context [if ?b then _ else _] => destruct b eqn:?
         end; intros [= <- <- <-] || discriminate;
    repeat match goal with
           | H : (_ && _) = true |- _ => apply andb_true_iff in H; destruct H
           | H : (_ <=? _) = true |- _ => apply Z.leb_le in H
           | H : (_ =? _) = true |- _ => apply Z.eqb_eq in H
           end; repeat split; try lia; auto.
Qed.

Lemma inRange_high (lo hi : Z) (c : ascii) :
  128 <= lo -> utf8.inRange lo hi c = true -> (128 <=? utf8.byte c) = true.
Proof.
  unfold utf8.inRange. intros Hlo H. apply andb_true_iff in H. destruct H as [H _].
  apply Z.leb_le in H. apply Z.leb_le. lia.
Qed.

Lemma continuation_high (c : ascii) :
  utf8.continuation c = true -> (128 <=? utf8.byte c) = true.
Proof. unfold utf8.continuation. intros H. now apply andb_true_iff in H. Qed.

(** A rune that is decoded starts with a byte of 0x80 or more and is
    followed by as many such bytes as its size says. *)
Lemma DecodeRuneInString_high (c : ascii) (s : string) (r : Z) (size : nat) :
  utf8.DecodeRuneInString (String c s) = Some (r, size) ->
  (128 <=? utf8.byte c) = true /\ high (size - 1) s = true.
Proof.
  unfold utf8.DecodeRuneInString.
  destruct (utf8.first c) as [[[sz lo] hi]|] eqn:Hf; [|discriminate].
  destruct (first_high _ _ _ _ Hf) as (Hc & Hlo & Hsz).
  assert (Hc' : (128 <=? utf8.byte c) = true) by now apply Z.leb_le.
  destruct s as [|s1 rest1]; [discriminate|].
  destruct (utf8.inRange lo hi s1) eqn:H1; simpl; [|discriminate].
  pose proof (inRange_high _ _ _ Hlo H1) as Hs1.
  destruct (sz <=? 2)%nat.
  { intros [= <- <-]. simpl. now rewrite Hs1. }
  destruct rest1 as [|s2 rest2]; [discriminate|].
  destruct (utf8.continuation s2) eqn:H2; simpl; [|discriminate].
  pose proof (continuation_high _ H2) as Hs2.
  destruct (sz <=? 3)%nat.
  { intros [= <- <-]. simpl. now rewrite Hs1, Hs2. }
  destruct rest2 as [|s3 rest3]; [discriminate|].
  destruct (utf8.continuation s3) eqn:H3; simpl; [|discriminate].
  pose proof (continuation_high _ H3) as Hs3.
  intros [= <- <-]. simpl. rewrite Hs1, Hs2, Hs3. split; [assumption|].
  destruct rest3; reflexivity.
Qed.

(** What [appendString] puts between the quotes is well formed and
    without control bytes, whatever the bytes of the string. *)
Lemma appendStringBody_valid (s : string) :
  forall (k : nat) (copy : bool),
    high k s = true ->
    validChars (json.appendStringBody k copy s) = true /\
    printable (json.appendStringBody k copy s) = true.
Proof.
  induction s as [|c s IH]; intros k copy Hk; [split; reflexivity|].
  destruct k as [|k].
  - cbn [json.appendStringBody].
    destruct (utf8.byte c <? 128) eqn:Hc.
    + destruct (IH O true eq_refl) as [Hv Hp].
      rewrite validChars_ascii by exact Hc.
      rewrite printable_app, printable_ascii by exact Hc. now split.
    + destruct (utf8.DecodeRuneInString (String c s)) as [[r size]|] eqn:Hd.
      * destruct (DecodeRuneInString_high _ _ _ _ Hd) as [Hhc Hh].
        destruct ((r =? 8232) || (r =? 8233)) eqn:Hr.
        -- replace (size - 1)%nat with (size - 1)%nat in * by reflexivity.
           destruct (IH (size - 1)%nat false Hh) as [Hv Hp].
           apply orb_true_iff in Hr.
           destruct Hr as [Hr|Hr]; apply Z.eqb_eq in Hr; subst r; split; assumption.
        -- destruct (IH (size - 1)%nat true Hh) as [Hv Hp].
           rewrite validChars_high_cons by exact Hhc. split; [exact Hv|].
           simpl. rewrite Hp, andb_true_r. apply Z.leb_le. apply Z.leb_le in Hhc. lia.
      * destruct (IH O true eq_refl) as [Hv Hp]. split; assumption.
  - simpl in Hk. apply andb_true_iff in Hk. destruct Hk as [Hc Hk].
    destruct (IH k copy Hk) as [Hv Hp].
    cbn [json.appendStringBody]. destruct copy; [|now split].
    rewrite validChars_high_cons by exact Hc. split; [exact Hv|].
    simpl. rewrite Hp, andb_true_r. apply Z.leb_le. apply Z.leb_le in Hc. lia.
Qed.












(** X16: whatever bytes the path holds, [StatError.MarshalJSON] gives
    the object with the fields status, code, path and message in this
    order, in which the path and the message stand as well-formed JSON
    string literals: no raw quote, backslash or control byte between the
    quotes. *)
Theorem StatError_json_wellformed (err : StatError.t) :
  exists p m,
    validChars p = true /\ validChars m = true /\
    StatError.MarshalJSON err =
      Some ("{" ++ q "status" ++ ":" ++ q "error" ++ "," ++
            q "code" ++ ":" ++ strconv.Itoa (StatError.Code err) ++ "," ++
            q "path" ++ ":" ++ q p ++ "," ++
            q "message" ++ ":" ++ q m ++ "}").
Proof.
  exists (json.appendStringBody 0 true (StatError.Path err)),
         (json.appendStringBody 0 true (StatError.Message err)).
  split; [apply (appendStringBody_valid _ O true eq_refl)|].
  split; [apply (appendStringBody_valid _ O true eq_refl)|].
  unfold StatError.MarshalJSON, json.Marshal. cbn [json.marshalFields json.marshalValue].
  simpl mbind. unfold fmap, option_fmap, option_map. f_equal.
  unfold json.appendString, q. rewrite !append_assoc. reflexivity.
Qed.



(** X18: a descriptor whose modification time has an RFC 3339 form is
    marshalled as the object with the fields type, name, path, (for a
    file) size, and mtime, in this order; the name and the path stand as
    well-formed JSON string literals whatever their bytes, the size as
    its decimal form, the time in RFC 3339. *)
Theorem descriptor_json_wellformed :
  (forall f : FileStat.t,
     rfc3339 (FileStat.MTime f) ->
     exists n p,
       validChars n = true /\ validChars p = true /\
       FileStat.MarshalJSON f =
         Some ("{" ++ q "type" ++ ":" ++ q "file" ++ "," ++
               q "name" ++ ":" ++ q n ++ "," ++ q "path" ++ ":" ++ q p ++ "," ++
               q "size" ++ ":" ++ strconv.Itoa (FileStat.Size f) ++ "," ++
               q "mtime" ++ ":" ++ q (time.appendFormatRFC3339 (FileStat.MTime f)) ++
               "}")) /\
  (forall d : DirStat.t,
     rfc3339 (DirStat.MTime d) ->
     exists n p,
       validChars n = true /\ validChars p = true /\
       DirStat.MarshalJSON d =
         Some ("{" ++ q "type" ++ ":" ++ q "directory" ++ "," ++
               q "name" ++ ":" ++ q n ++ "," ++ q "path" ++ ":" ++ q p ++ "," ++
               q "mtime" ++ ":" ++ q (time.appendFormatRFC3339 (DirStat.MTime d)) ++
               "}")).
Proof.
  split.
  - intros f Ht.
    exists (json.appendStringBody 0 true (FileStat.Name f)),
           (json.appendStringBody 0 true (FileStat.Path f)).
    split; [apply (appendStringBody_valid _ O true eq_refl)|].
    split; [apply (appendStringBody_valid _ O true eq_refl)|].
    unfold FileStat.MarshalJSON, json.Marshal.
    cbn [json.marshalFields json.marshalValue].
    rewrite (appendStrictRFC3339_Some _ Ht).
    simpl mbind. unfold fmap, option_fmap, option_map. f_equal.
    unfold json.appendString, q. rewrite !append_assoc. reflexivity.
  - intros d Ht.
    exists (json.appendStringBody 0 true (DirStat.Name d)),
           (json.appendStringBody 0 true (DirStat.Path d)).
    split; [apply (appendStringBody_valid _ O true eq_refl)|].
    split; [apply (appendStringBody_valid _ O true eq_refl)|].
    unfold DirStat.MarshalJSON, json.Marshal.
    cbn [json.marshalFields json.marshalValue].
    rewrite (appendStrictRFC3339_Some _ Ht).
    simpl mbind. unfold fmap, option_fmap, option_map. f_equal.
    unfold json.appendString, q. rewrite !append_assoc. reflexivity.
Qed.

Lemma descriptor_json_wellformed_witness :
  exists n p,
    validChars n = true /\ validChars p = true /\
    DirStat.MarshalJSON {| DirStat.Name := "tmp"; DirStat.Path := "/tmp";
                           DirStat.MTime := Demo.newYear2023 |} =
      Some ("{" ++ q "type" ++ ":" ++ q "directory" ++ "," ++
            q "name" ++ ":" ++ q n ++ "," ++ q "path" ++ ":" ++ q p ++ "," ++
            q "mtime" ++ ":" ++ q (time.appendFormatRFC3339 Demo.newYear2023) ++
            "}").
Proof.
  apply (proj2 descriptor_json_wellformed
           {| DirStat.Name := "tmp"; DirStat.Path := "/tmp";
              DirStat.MTime := Demo.newYear2023 |}).
  unfold rfc3339. simpl. lia.
Defined.

(** ** What the request and the mount point contribute *)




(** X21: mounted at the root (a base path of slashes only, or empty),
    the middleware answers every request whose path starts with a slash
    itself: the inner handler is never reached. *)
Theorem root_mount_shadows_inner
    (Redirect : ResponseWriter -> Request -> string -> Z -> ResponseWriter)
    (FileSystem : Type) (base : string) (root : FileSystem) (inner1 inner2 : Handler)
    (w : ResponseWriter) (r : Request) (σ : World) :
  strings.TrimRight base "/" = EmptyString ->
  strings.HasPrefix (URL_Path r) "/" = true ->
  ServeAPI Redirect FileSystem base root inner1 w r σ =
  ServeAPI Redirect FileSystem base root inner2 w r σ.
Proof.
  intros Hb Hp. unfold ServeAPI. rewrite Hb.
  destruct (String.eqb (URL_Path r) EmptyString) eqn:He; [reflexivity|].
  change (EmptyString ++ "/") with "/". now rewrite Hp.
Qed.

Lemma root_mount_shadows_inner_witness :
  ServeAPI Demo.Redirect unit "//" tt Demo.teapot NewResponseWriter
    (Demo.GET "/index.html") Demo.world =
  ServeAPI Demo.Redirect unit "//" tt (fun w r σ => Ok (w, r, σ)) NewResponseWriter
    (Demo.GET "/index.html") Demo.world.
Proof.
  apply (root_mount_shadows_inner Demo.Redirect unit "//" tt); reflexivity.
Defined.

(** ** The text of a StatError *)

(** The decimal form of an integer reads back as that integer. *)
Lemma Itoa_reads_back (z : Z) :
  option_map Z.of_int (NilZero.int_of_string (strconv.Itoa z)) = Some z.
Proof.
  unfold strconv.Itoa. rewrite NilZero.isi.
  - simpl. now rewrite DecimalZ.of_to.
  - destruct z as [|p|p]; simpl; try discriminate.
    intros [= H]. now apply Unsigned.to_uint_nonnil in H.
  - destruct z as [|p|p]; simpl; try discriminate.
    intros [= H]. now apply Unsigned.to_uint_nonnil in H.
Qed.

Lemma Itoa_injective (a b : Z) : strconv.Itoa a = strconv.Itoa b -> a = b.
Proof.
  intros H. pose proof (Itoa_reads_back a) as Ha. rewrite H, Itoa_reads_back in Ha.
  congruence.
Qed.

Lemma string_of_uint_no_colon (d : Decimal.uint) :
  no_colon (NilEmpty.string_of_uint d) = true.
Proof. induction d; simpl; auto. Qed.

Lemma Itoa_no_colon (z : Z) : no_colon (strconv.Itoa z) = true.
Proof.
  unfold strconv.Itoa, NilZero.string_of_int, NilZero.string_of_uint.
  destruct (Z.to_int z) as [d|d]; destruct d; simpl;
    first [reflexivity | apply string_of_uint_no_colon].
Qed.

Lemma colon_delimits (a b x y : string) :
  no_colon a = true -> no_colon b = true ->
  a ++ String ":" x = b ++ String ":" y -> a = b.
Proof.
  revert b. induction a as [|c a IH]; intros [|d b] Ha Hb H.
  - reflexivity.
  - simpl in Hb. rewrite append_cons in H. injection H as <- _.
    simpl in Hb. discriminate Hb.
  - simpl in Ha. rewrite append_cons in H. injection H as -> _.
    simpl in Ha. discriminate Ha.
  - rewrite !append_cons in H. injection H as -> H.
    simpl in Ha, Hb. apply andb_true_iff in Ha, Hb.
    f_equal. apply IH; tauto.
Qed.

(** X20: [StatError.Error] tells the code: two [StatError]s with the
    same error text have the same code (the text is "error ", the code
    in decimal, ": " and the message). *)
Theorem StatError_Error_tells_code (e1 e2 : StatError.t) :
  StatError.Error e1 = StatError.Error e2 -> StatError.Code e1 = StatError.Code e2.
Proof.
  unfold StatError.Error. intros H.
  apply Itoa_injective.
  apply (colon_delimits _ _ (" " ++ StatError.Message e1) (" " ++ StatError.Message e2));
    try apply Itoa_no_colon.
  change ("error " ++ ?x = "error " ++ ?y) with
    (String "e" (String "r" (String "r" (String "o" (String "r" (String " " x))))) =
     String "e" (String "r" (String "r" (String "o" (String "r" (String " " y)))))) in H.
  injection H as H. exact H.
Qed.

Lemma StatError_Error_tells_code_witness :
  StatError.Code (NewStatError 404 "/tmp/a") = StatError.Code (NewStatError 404 "/tmp/b").
Proof.
  apply (StatError_Error_tells_code (NewStatError 404 "/tmp/a") (NewStatError 404 "/tmp/b")).
  reflexivity.
Defined.
